(** * Rate Card Calculator: rate pipeline, currency conversion and rate refresh

    A shallow embedding of the arithmetic core of the repository:
    - [calculateCustomRate], [calculateSWATRate]   (client hook use-calculator)
    - [convertFromAED], [convertToAED]             (client hook use-currency)
    - [updateExchangeRates]                        (server service currency)
    - [updateCurrencyRates], [createQuote]         (server SupabaseStorage)
    - the three POST handlers of [registerRoutes]  (server routes)

    JavaScript numbers are modelled by [number]: an exact rational, one of
    the two infinities, or NaN.  Arithmetic on finite values is exact; the
    binary64 rounding of each operation, overflow and the sign of zero are
    not represented.  Every concrete evaluation below uses values on which
    binary64 arithmetic is exact as well, or far away from a rounding tie. *)

From stdpp Require Import gmap strings.
From Stdlib Require Import Ascii String QArith Qround Qabs Lqa.

Local Open Scope string_scope.
Local Open Scope Z_scope.

(** ** JavaScript numbers *)

Inductive number : Type :=
| Fin (q : Q)
| Inf (negative : bool)
| NaN.

Definition Qneg_bool (q : Q) : bool := Z.ltb (Qnum q) 0.
Definition Qzero_bool (q : Q) : bool := Z.eqb (Qnum q) 0.

Definition of_Z (z : Z) : number := Fin (inject_Z z).

(** A decimal literal [m / 10^k], e.g. [0.272] is [decimal 272 3]. *)
Definition Qdecimal (m : Z) (k : nat) : Q :=
  Qmake m (Z.to_pos (10 ^ Z.of_nat k)).

Definition decimal (m : Z) (k : nat) : number := Fin (Qred (Qdecimal m k)).

Definition num_mul (x y : number) : number :=
  match x, y with
  | NaN, _ | _, NaN => NaN
  | Fin a, Fin b => Fin (a * b)
  | Inf s, Fin b | Fin b, Inf s =>
      if Qzero_bool b then NaN else Inf (xorb s (Qneg_bool b))
  | Inf s, Inf t => Inf (xorb s t)
  end.

Definition num_div (x y : number) : number :=
  match x, y with
  | NaN, _ | _, NaN => NaN
  | Fin a, Fin b =>
      if Qzero_bool b
      then (if Qzero_bool a then NaN else Inf (Qneg_bool a))
      else Fin (a / b)
  | Fin _, Inf _ => Fin 0
  | Inf s, Fin b => Inf (xorb s (Qneg_bool b))
  | Inf _, Inf _ => NaN
  end.

Definition num_sub (x y : number) : number :=
  match x, y with
  | NaN, _ | _, NaN => NaN
  | Fin a, Fin b => Fin (a - b)
  | Fin _, Inf t => Inf (negb t)
  | Inf s, Fin _ => Inf s
  | Inf s, Inf t => if Bool.eqb s t then NaN else Inf s
  end.

(** [Math.round]: the integer nearest to the argument, ties towards
    plus infinity. *)
Definition Math_round (x : number) : number :=
  match x with
  | Fin q => Fin (inject_Z (Qfloor (q + (1 # 2))))
  | other => other
  end.

(** [x === y] on numbers. *)
Definition num_eqb (x y : number) : bool :=
  match x, y with
  | Fin a, Fin b => Qeq_bool a b
  | Inf s, Inf t => Bool.eqb s t
  | _, _ => false
  end.

(** [x >= y] on numbers. *)
Definition num_geb (x y : number) : bool :=
  match x, y with
  | NaN, _ | _, NaN => false
  | Fin a, Fin b => Qle_bool b a
  | Inf s, Inf t => orb (negb s) t
  | Inf s, Fin _ => negb s
  | Fin _, Inf t => t
  end.

(** Truthiness of a number, as tested by [||] and [!]. *)
Definition truthy (x : number) : bool :=
  match x with
  | Fin q => negb (Qzero_bool q)
  | Inf _ => true
  | NaN => false
  end.

Declare Scope num_scope.
Delimit Scope num_scope with num.
Bind Scope num_scope with number.
Infix "*" := num_mul : num_scope.
Infix "/" := num_div : num_scope.
Infix "-" := num_sub : num_scope.

(** ** [parseFloat] and [parseInt] on strings *)

Definition isWhiteSpace (c : ascii) : bool :=
  let n := nat_of_ascii c in
  orb (Nat.eqb n 32) (andb (Nat.leb 9 n) (Nat.leb n 13)).

Fixpoint trimStart (l : list ascii) : list ascii :=
  match l with
  | c :: rest => if isWhiteSpace c then trimStart rest else l
  | [] => []
  end.

(** Value of a digit character in the given radix (10 or 16). *)
Definition digitValue (radix : Z) (c : ascii) : option Z :=
  let n := Z.of_nat (nat_of_ascii c) in
  let v := if andb (48 <=? n) (n <=? 57) then n - 48
           else if andb (97 <=? n) (n <=? 102) then n - 87
           else if andb (65 <=? n) (n <=? 70) then n - 55
           else 99 in
  if v <? radix then Some v else None.

(** Reads the longest run of digits: accumulated value, number of digits
    read, and the rest of the input. *)
Fixpoint readDigits (radix : Z) (acc : Z) (count : nat) (l : list ascii)
  : Z * nat * list ascii :=
  match l with
  | c :: rest =>
      match digitValue radix c with
      | Some v => readDigits radix (acc * radix + v) (S count) rest
      | None => (acc, count, l)
      end
  | [] => (acc, count, [])
  end.

Definition readSign (l : list ascii) : bool * list ascii :=
  match l with
  | "-"%char :: rest => (true, rest)
  | "+"%char :: rest => (false, rest)
  | _ => (false, l)
  end.

Definition startsWith (p : string) (l : list ascii) : bool :=
  let pl := list_ascii_of_string p in
  bool_decide (take (List.length pl) l = pl).

(** The optional exponent part [e[+-]digits]; 0 when absent or incomplete. *)
Definition readExponent (l : list ascii) : Z :=
  match l with
  | c :: rest =>
      if orb (Ascii.eqb c "e") (Ascii.eqb c "E") then
        let '(neg, rest') := readSign rest in
        let '(e, n, _) := readDigits 10 0 0%nat rest' in
        match n with
        | O => 0
        | _ => if neg then - e else e
        end
      else 0
  | [] => 0
  end.

Definition Qpow10 (e : Z) : Q :=
  match e with
  | Z0 => 1
  | Zpos p => inject_Z (Z.pow 10 (Zpos p))
  | Zneg p => Qmake 1 (Pos.pow 10 p)
  end.

Definition parseFloatChars (l : list ascii) : number :=
  let '(neg, l1) := readSign (trimStart l) in
  if startsWith "Infinity" l1 then Inf neg else
  let '(ip, ni, l2) := readDigits 10 0 0%nat l1 in
  let '(fp, nf, l3) :=
    match l2 with
    | "."%char :: rest => readDigits 10 0 0%nat rest
    | _ => (0, O, l2)
    end in
  match (ni + nf)%nat with
  | O => NaN
  | _ =>
      let mant := (inject_Z ip + Qdecimal fp nf)%Q in
      let v := (mant * Qpow10 (readExponent l3))%Q in
      Fin (Qred (if neg then - v else v))
  end.

Definition parseIntChars (l : list ascii) : number :=
  let '(neg, l1) := readSign (trimStart l) in
  let '(radix, l2) :=
    if orb (startsWith "0x" l1) (startsWith "0X" l1)
    then (16, drop 2 l1) else (10, l1) in
  let '(v, n, _) := readDigits radix 0 0%nat l2 in
  match n with
  | O => NaN
  | _ => of_Z (if neg then - v else v)
  end.

Definition parseFloat (s : string) : number :=
  parseFloatChars (list_ascii_of_string s).

Definition parseInt (s : string) : number :=
  parseIntChars (list_ascii_of_string s).

(** A JSON field that holds a decimal string (as stored by the schema's
    numeric columns) or, once a refresh has overwritten it, a number. *)
Inductive numeric : Type :=
| NumStr (s : string)
| NumVal (n : number).

(** [parseFloat] applied to such a field: a number is first converted to
    its decimal string, which parses back to the same number. *)
Definition parseFloatOf (v : numeric) : number :=
  match v with
  | NumStr s => parseFloat s
  | NumVal n => n
  end.

(** ** Catalog records (shared schema) *)

Record Region : Type := {
  region_id : string;
  region_name : string;
  region_multiplier : string;
}.

Record Role : Type := {
  role_id : string;
  role_name : string;
  role_baseRate : number;
  role_category : string;
}.

Record SeniorityLevel : Type := {
  seniority_id : string;
  seniority_name : string;
  seniority_multiplier : string;
}.

Record Currency : Type := {
  currency_id : string;
  currency_name : string;
  currency_symbol : string;
  currency_rate : numeric;
  currency_baseCurrency : option string;
}.

(** ** The calculator hook (useCalculator) *)

Module Calculator.

(** The data the hook has fetched; each list defaults to [[]]. *)
Record Data : Type := {
  regions : list Region;
  customRoles : list Role;
  swatRoles : list Role;
  seniorityLevels : list SeniorityLevel;
}.

Record CustomRate : Type := {
  baseRate : number;
  regionalMultiplier : number;
  seniorityMultiplier : number;
  finalRate : number;
}.

Record SWATRate : Type := {
  swat_baseRate : number;
  baseWithSeniority : number;
  afterWorkload : number;
  durationDiscount : number;
  swat_finalRate : number;
}.

Definition findRegion (d : Data) (regionId : string) : option Region :=
  find (fun r => String.eqb (region_id r) regionId) (regions d).

Definition findCustomRole (d : Data) (roleId : string) : option Role :=
  find (fun r => String.eqb (role_id r) roleId) (customRoles d).

Definition findSwatRole (d : Data) (roleId : string) : option Role :=
  find (fun r => String.eqb (role_id r) roleId) (swatRoles d).

Definition findSeniority (d : Data) (seniorityId : string) : option SeniorityLevel :=
  find (fun s => String.eqb (seniority_id s) seniorityId) (seniorityLevels d).

Definition zeroCustomRate : CustomRate :=
  {| baseRate := of_Z 0; regionalMultiplier := of_Z 0;
     seniorityMultiplier := of_Z 0; finalRate := of_Z 0 |}.

Definition calculateCustomRate (d : Data) (regionId roleId seniorityId : string)
  : CustomRate :=
  match findRegion d regionId, findCustomRole d roleId,
        findSeniority d seniorityId with
  | Some region, Some role, Some seniority =>
      let baseRate := role_baseRate role in
      let regionalMultiplier := parseFloat (region_multiplier region) in
      let seniorityMultiplier := parseFloat (seniority_multiplier seniority) in
      let finalRate :=
        Math_round (baseRate * regionalMultiplier * seniorityMultiplier)%num in
      {| baseRate := baseRate; regionalMultiplier := regionalMultiplier;
         seniorityMultiplier := seniorityMultiplier; finalRate := finalRate |}
  | _, _, _ => zeroCustomRate
  end.

Definition zeroSWATRate : SWATRate :=
  {| swat_baseRate := of_Z 0; baseWithSeniority := of_Z 0;
     afterWorkload := of_Z 0; durationDiscount := of_Z 0;
     swat_finalRate := of_Z 0 |}.

(** The [if / else if] chain on the parsed duration. *)
Definition discountFor (duration : number) : number :=
  if num_eqb duration (of_Z 2) then of_Z 5
  else if num_eqb duration (of_Z 3) then of_Z 10
  else if num_geb duration (of_Z 4) then of_Z 15
  else of_Z 0.

Definition isEmpty (s : string) : bool := String.eqb s "".

Definition calculateSWATRate (d : Data)
    (roleId workloadPercent durationMonths seniorityId : string) : SWATRate :=
  match findSwatRole d roleId, findSeniority d seniorityId with
  | Some role, Some seniority =>
      if orb (isEmpty workloadPercent) (isEmpty durationMonths)
      then zeroSWATRate
      else
        let baseRate := role_baseRate role in
        let seniorityMultiplier := parseFloat (seniority_multiplier seniority) in
        let workload := (parseInt workloadPercent / of_Z 100)%num in
        let duration := parseInt durationMonths in
        let baseWithSeniority := Math_round (baseRate * seniorityMultiplier)%num in
        let afterWorkload := Math_round (baseWithSeniority * workload)%num in
        let durationDiscount := discountFor duration in
        let afterDurationDiscount :=
          Math_round (afterWorkload *
                      (of_Z 1 - durationDiscount / of_Z 100))%num in
        let finalRate := Math_round (afterDurationDiscount * decimal 8 1)%num in
        {| swat_baseRate := baseRate; baseWithSeniority := baseWithSeniority;
           afterWorkload := afterWorkload; durationDiscount := durationDiscount;
           swat_finalRate := finalRate |}
  | _, _ => zeroSWATRate
  end.

End Calculator.

(** ** Seed catalog written by [initializeData] *)

Module Seed.

Definition regions : list Region :=
  [ {| region_id := "euro-asia"; region_name := "Euro Asia"; region_multiplier := "1.00" |};
    {| region_id := "middle-east"; region_name := "Middle East"; region_multiplier := "1.15" |};
    {| region_id := "europe"; region_name := "Europe"; region_multiplier := "1.30" |};
    {| region_id := "north-america"; region_name := "North America"; region_multiplier := "1.40" |} ].

Definition role (id name category : string) (rate : Z) : Role :=
  {| role_id := id; role_name := name; role_baseRate := of_Z rate;
     role_category := category |}.

Definition customRoles : list Role :=
  [ role "frontend-developer" "Frontend Developer" "custom" 120;
    role "backend-developer" "Backend Developer" "custom" 130;
    role "fullstack-developer" "Full Stack Developer" "custom" 140;
    role "devops-engineer" "DevOps Engineer" "custom" 150;
    role "data-scientist" "Data Scientist" "custom" 160;
    role "ui-ux-designer" "UI/UX Designer" "custom" 110;
    role "product-manager" "Product Manager" "custom" 180;
    role "project-manager" "Project Manager" "custom" 170;
    role "qa-engineer" "QA Engineer" "custom" 100;
    role "mobile-developer" "Mobile Developer" "custom" 135 ].

Definition swatRoles : list Role :=
  [ role "swat-frontend" "Frontend Specialist" "swat" 200;
    role "swat-backend" "Backend Specialist" "swat" 220;
    role "swat-devops" "DevOps Specialist" "swat" 250;
    role "swat-architecture" "Solution Architect" "swat" 300;
    role "swat-security" "Security Expert" "swat" 280;
    role "swat-performance" "Performance Engineer" "swat" 240 ].

Definition seniorityLevels : list SeniorityLevel :=
  [ {| seniority_id := "junior"; seniority_name := "Junior"; seniority_multiplier := "0.70" |};
    {| seniority_id := "mid"; seniority_name := "Mid-Level"; seniority_multiplier := "1.00" |};
    {| seniority_id := "senior"; seniority_name := "Senior"; seniority_multiplier := "1.40" |};
    {| seniority_id := "lead"; seniority_name := "Lead"; seniority_multiplier := "1.80" |};
    {| seniority_id := "principal"; seniority_name := "Principal"; seniority_multiplier := "2.20" |} ].

Definition currency (id name symbol rate : string) : Currency :=
  {| currency_id := id; currency_name := name; currency_symbol := symbol;
     currency_rate := NumStr rate; currency_baseCurrency := None |}.

Definition currencies : list Currency :=
  [ currency "AED" "UAE Dirham" "د.إ" "1.0";
    currency "USD" "US Dollar" "$" "0.27";
    currency "EUR" "Euro" "€" "0.25";
    currency "GBP" "British Pound" "£" "0.21";
    currency "INR" "Indian Rupee" "₹" "22.5" ].

Definition data : Calculator.Data :=
  {| Calculator.regions := regions; Calculator.customRoles := customRoles;
     Calculator.swatRoles := swatRoles;
     Calculator.seniorityLevels := seniorityLevels |}.

End Seed.

(** ** The currency hook (CurrencyProvider) *)

Module CurrencyHook.

(** Payload of [GET /api/currencies]. *)
Record CurrencyData : Type := {
  data_currencies : list Currency;
  data_baseCurrency : string;
}.

(** What the conversion functions close over: the selected display
    currency and the query result ([None] while it has not arrived). *)
Record State : Type := {
  selectedCurrency : string;
  currencyData : option CurrencyData;
}.

Definition currencies (st : State) : list Currency :=
  match currencyData st with
  | Some d => data_currencies d
  | None => []
  end.

Definition currentBaseCurrency (st : State) : string :=
  match currencyData st with
  | Some d => if String.eqb (data_baseCurrency d) "" then "AED"
              else data_baseCurrency d
  | None => "AED"
  end.

Definition findCurrency (st : State) (id : string) : option Currency :=
  find (fun c => String.eqb (currency_id c) id) (currencies st).

Definition convertFromAED (st : State) (aedAmount : number) : number :=
  if String.eqb (selectedCurrency st) "AED" then aedAmount else
  match findCurrency st (selectedCurrency st) with
  | None => aedAmount
  | Some currency =>
      if String.eqb (currentBaseCurrency st) "AED" then
        Math_round (aedAmount * parseFloatOf (currency_rate currency))%num
      else
        match findCurrency st (currentBaseCurrency st) with
        | None => aedAmount
        | Some baseCurrencyData =>
            let aedToBaseRate :=
              (of_Z 1 / parseFloatOf (currency_rate baseCurrencyData))%num in
            let baseAmount := (aedAmount * aedToBaseRate)%num in
            Math_round (baseAmount * parseFloatOf (currency_rate currency))%num
        end
  end.

Definition convertToAED (st : State) (amount : number) (fromCurrency : string)
  : number :=
  if String.eqb fromCurrency "AED" then amount else
  match findCurrency st fromCurrency with
  | None => amount
  | Some currency =>
      Math_round (amount / parseFloatOf (currency_rate currency))%num
  end.

Definition getCurrencySymbol (st : State) : string :=
  if String.eqb (selectedCurrency st) "AED" then "AED" else
  match findCurrency st (selectedCurrency st) with
  | Some currency =>
      if String.eqb (currency_symbol currency) "" then selectedCurrency st
      else currency_symbol currency
  | None => selectedCurrency st
  end.

Definition getExchangeRate (st : State) : number :=
  match findCurrency st (selectedCurrency st) with
  | Some currency => parseFloatOf (currency_rate currency)
  | None => of_Z 1
  end.

End CurrencyHook.

(** ** Exceptions *)

Inductive Exception : Type :=
| FetchFailed                                  (* [fetch] rejected *)
| HttpError (status : Z) (statusText : string)
| JsonSyntaxError                              (* [response.json()] rejected *)
| TypeError                                    (* property read on [null] *)
| Error (message : string)
| ZodError.

Inductive result (A : Type) : Type :=
| Ok (a : A)
| Throw (e : Exception).
Arguments Ok {A} a.
Arguments Throw {A} e.

Definition bind {A B : Type} (r : result A) (k : A -> result B) : result B :=
  match r with
  | Ok a => k a
  | Throw e => Throw e
  end.

(** [try { body } catch (error) { handler }] *)
Definition try_catch {A : Type} (body : result A) (handler : Exception -> result A)
  : result A :=
  match body with
  | Ok a => Ok a
  | Throw e => handler e
  end.

Notation "'do' x <- r ; k" := (bind r (fun x => k))
  (at level 10, x name, r at level 100, k at level 200).

(** [a || b] where [a] is a possibly missing number. *)
Definition orNumber (a : option number) (b : number) : number :=
  match a with
  | Some v => if truthy v then v else b
  | None => b
  end.

(** ** The exchange-rate service (services/currency) *)

Module CurrencyService.

(** The fields of the JSON document that the service reads. *)
Record ApiData : Type := {
  api_result : option string;
  api_error : option string;
  conversion_rates : option (gmap string number);
}.

Inductive Body : Type :=
| Unparseable
| JsonNull
| JsonData (data : ApiData).

Record Response : Type := {
  ok : bool;
  status : Z;
  statusText : string;
  body : Body;
}.

(** The network: a request either fails or is answered. *)
Definition Fetch : Type := string -> option Response.

Definition apiKey : string := "092b467576c6a693b18c8cda".

Definition url (baseCurrency : string) : string :=
  "https://v6.exchangerate-api.com/v6/" ++ apiKey ++ "/latest/" ++ baseCurrency.

Definition fallbackRates : gmap string number :=
  list_to_map
    [ ("AED", decimal 10 1);
      ("USD", decimal 272 3);
      ("EUR", decimal 25 2);
      ("GBP", decimal 215 3);
      ("INR", decimal 225 1);
      ("PKR", decimal 755 1);
      ("CAD", decimal 37 2);
      ("AUD", decimal 41 2);
      ("JPY", decimal 402 1);
      ("CHF", decimal 24 2);
      ("CNY", decimal 195 2) ].

Definition extractRates (rates : gmap string number) : gmap string number :=
  list_to_map
    [ ("AED", orNumber (rates !! "AED") (decimal 10 1));
      ("USD", orNumber (rates !! "USD") (decimal 272 3));
      ("EUR", orNumber (rates !! "EUR") (decimal 25 2));
      ("GBP", orNumber (rates !! "GBP") (decimal 215 3));
      ("INR", orNumber (rates !! "INR") (decimal 225 1));
      ("PKR", orNumber (rates !! "PKR") (decimal 755 1));
      ("CAD", orNumber (rates !! "CAD") (decimal 37 2));
      ("AUD", orNumber (rates !! "AUD") (decimal 41 2));
      ("JPY", orNumber (rates !! "JPY") (decimal 402 1));
      ("CHF", orNumber (rates !! "CHF") (decimal 24 2));
      ("CNY", orNumber (rates !! "CNY") (decimal 195 2)) ].

(** The body of the [try] block. *)
Definition fetchRates (fetch : Fetch) (baseCurrency : string)
  : result (gmap string number) :=
  do response <- match fetch (url baseCurrency) with
                 | Some r => Ok r
                 | None => Throw FetchFailed
                 end;
  if negb (ok response)
  then Throw (HttpError (status response) (statusText response))
  else
    do data <- match body response with
               | Unparseable => Throw JsonSyntaxError
               | JsonNull => Throw TypeError
               | JsonData d => Ok d
               end;
    if negb (bool_decide (api_result data = Some "success"))
    then Throw (Error ("API Error: " ++
                       match api_error data with
                       | Some e => if String.eqb e "" then "Unknown error" else e
                       | None => "Unknown error"
                       end))
    else
      match conversion_rates data with
      | None => Throw (Error "No conversion rates found in API response")
      | Some rates => Ok (extractRates rates)
      end.

Definition updateExchangeRates (fetch : Fetch) (baseCurrency : string)
  : result (gmap string number) :=
  try_catch (fetchRates fetch baseCurrency) (fun _ => Ok fallbackRates).

End CurrencyService.

(** ** The key-value store (SupabaseStorage) *)

(** JSON values of request bodies and of free-form quote configurations. *)
#[warnings="-register-all"]
Inductive json : Type :=
| JNull
| JBool (b : bool)
| JNumber (n : number)
| JString (s : string)
| JArray (items : list json)
| JObject (fields : list (string * json)).

Record InsertQuote : Type := {
  insert_type : string;
  insert_configuration : json;
  insert_finalRate : number;
  insert_currency : string;
}.

Record Quote : Type := {
  quote_id : string;
  quote_type : string;
  quote_configuration : json;
  quote_finalRate : number;
  quote_currency : string;
  quote_createdAt : string;
}.

Module Storage.

(** The rows of table [kv_store_f150aa0f] that the modelled operations
    touch: keys [currencies], [current_base_currency] and [quote_<id>]. *)
Record Store : Type := {
  currencies_row : option (list Currency);
  base_currency_row : option string;
  quote_rows : gmap string Quote;
}.

(** Which of the database calls of one [updateCurrencyRates] report an
    error.  A call that reports an error has not changed the table. *)
Record Faults : Type := {
  select_currencies_fails : bool;
  upsert_currencies_fails : bool;
  upsert_base_currency_fails : bool;
}.

Definition noFaults : Faults :=
  {| select_currencies_fails := false; upsert_currencies_fails := false;
     upsert_base_currency_fails := false |}.

(** [select('value').eq('key', 'currencies').single()]: an error is
    reported when the call fails or when there is no such row. *)
Definition getCurrencies (fails : bool) (s : Store) : list Currency :=
  if fails then [] else
  match currencies_row s with
  | Some value => value
  | None => []
  end.

Definition getCurrentBaseCurrency (fails : bool) (s : Store) : string :=
  if fails then "AED" else
  match base_currency_row s with
  | Some value => if String.eqb value "" then "AED" else value
  | None => "AED"
  end.

(** Each upsert returns the new store and whether an error was reported. *)
Definition upsertCurrencies (fails : bool) (value : list Currency) (s : Store)
  : Store * bool :=
  if fails then (s, true)
  else ({| currencies_row := Some value;
           base_currency_row := base_currency_row s;
           quote_rows := quote_rows s |}, false).

Definition upsertBaseCurrency (fails : bool) (value : string) (s : Store)
  : Store * bool :=
  if fails then (s, true)
  else ({| currencies_row := currencies_row s;
           base_currency_row := Some value;
           quote_rows := quote_rows s |}, false).

Definition upsertQuote (fails : bool) (value : Quote) (s : Store)
  : Store * bool :=
  if fails then (s, true)
  else ({| currencies_row := currencies_row s;
           base_currency_row := base_currency_row s;
           quote_rows := <[ "quote_" ++ quote_id value := value ]> (quote_rows s) |},
        false).

(** [rates[currency.id] || currency.rate] *)
Definition newRate (rates : gmap string number) (currency : Currency) : numeric :=
  match rates !! currency_id currency with
  | Some v => if truthy v then NumVal v else currency_rate currency
  | None => currency_rate currency
  end.

(** One element of [currencies.map(...)]. *)
Definition updateCurrency (rates : gmap string number) (baseCurrency : string)
    (currency : Currency) : Currency :=
  {| currency_id := currency_id currency;
     currency_name := currency_name currency;
     currency_symbol := currency_symbol currency;
     currency_rate := newRate rates currency;
     currency_baseCurrency := Some baseCurrency |}.

Definition updateCurrencyRates (rates : gmap string number) (baseCurrency : string)
    (f : Faults) (s : Store) : Store * result unit :=
  let currencies := getCurrencies (select_currencies_fails f) s in
  let updatedCurrencies := map (updateCurrency rates baseCurrency) currencies in
  let '(s1, currenciesError) :=
    upsertCurrencies (upsert_currencies_fails f) updatedCurrencies s in
  let '(s2, baseCurrencyError) :=
    upsertBaseCurrency (upsert_base_currency_fails f) baseCurrency s1 in
  if orb currenciesError baseCurrencyError
  then (s2, Throw (Error "Failed to update currency rates"))
  else (s2, Ok tt).

(** [randomUUID()] and [new Date().toISOString()] are supplied by the
    environment. *)
Definition createQuote (uuid now : string) (fails : bool) (quote : InsertQuote)
    (s : Store) : Store * result Quote :=
  let newQuote :=
    {| quote_id := uuid;
       quote_type := insert_type quote;
       quote_configuration := insert_configuration quote;
       quote_finalRate := insert_finalRate quote;
       quote_currency := insert_currency quote;
       quote_createdAt := now |} in
  let '(s', error) := upsertQuote fails newQuote s in
  if error then (s', Throw (Error "Failed to create quote"))
  else (s', Ok newQuote).

Definition seed : Store :=
  {| currencies_row := Some Seed.currencies;
     base_currency_row := Some "AED";
     quote_rows := ∅ |}.

End Storage.

(** ** The POST handlers of [registerRoutes] *)

Module Routes.

Inductive Payload : Type :=
| Message (message : string)
| RatesUpdated (message : string) (rates : gmap string number)
               (baseCurrency : string)
| Created (quote : Quote).

Record HttpResponse : Type := {
  code : Z;
  payload : Payload;
}.

(** [body.name]: [None] stands for [undefined]. *)
Fixpoint assoc (name : string) (fields : list (string * json)) : option json :=
  match fields with
  | (k, v) :: rest => if String.eqb k name then Some v else assoc name rest
  | [] => None
  end.

Definition field (name : string) (body : json) : option json :=
  match body with
  | JObject fields => assoc name fields
  | _ => None
  end.

(** Truthiness of a possibly undefined JSON value. *)
Definition jsTruthy (v : option json) : bool :=
  match v with
  | None | Some JNull => false
  | Some (JBool b) => b
  | Some (JNumber n) => truthy n
  | Some (JString s) => negb (String.eqb s "")
  | Some (JArray _) | Some (JObject _) => true
  end.

(** [POST /api/currencies/update-rates]; [requested] is [req.body.baseCurrency]. *)
Definition postUpdateRates (fetch : CurrencyService.Fetch) (f : Storage.Faults)
    (requested : option string) (s : Storage.Store)
  : Storage.Store * HttpResponse :=
  let baseCurrency := match requested with Some b => b | None => "AED" end in
  match CurrencyService.updateExchangeRates fetch baseCurrency with
  | Throw _ =>
      (s, {| code := 500; payload := Message "Failed to update exchange rates" |})
  | Ok rates =>
      match Storage.updateCurrencyRates rates baseCurrency f s with
      | (s', Ok _) =>
          (s', {| code := 200;
                  payload := RatesUpdated "Exchange rates updated successfully"
                                          rates baseCurrency |})
      | (s', Throw _) =>
          (s', {| code := 500;
                  payload := Message "Failed to update exchange rates" |})
      end
  end.

(** [POST /api/quotes]; [parse] is [insertQuoteSchema.parse], with [None]
    for a thrown validation error. *)
Definition postQuote (parse : json -> option InsertQuote) (uuid now : string)
    (fails : bool) (body : json) (s : Storage.Store)
  : Storage.Store * HttpResponse :=
  let invalid := {| code := 400; payload := Message "Invalid quote data" |} in
  match parse body with
  | None => (s, invalid)
  | Some validatedData =>
      match Storage.createQuote uuid now fails validatedData s with
      | (s', Ok quote) => (s', {| code := 201; payload := Created quote |})
      | (s', Throw _) => (s', invalid)
      end
  end.

(** [POST /api/send-quote]; [deliver] stands for rendering the message
    and handing it to [sendEmail]: it yields the boolean [emailSent] or
    throws. *)
Definition postSendQuote
    (deliver : option json -> option json -> option json -> option json
               -> result bool)
    (body : json) : HttpResponse :=
  let recipientEmail := field "recipientEmail" body in
  let senderName := field "senderName" body in
  let message := field "message" body in
  let quoteData := field "quoteData" body in
  if negb (jsTruthy recipientEmail) || negb (jsTruthy senderName)
     || negb (jsTruthy quoteData)
  then {| code := 400; payload := Message "Missing required fields" |}
  else
    match deliver recipientEmail senderName quoteData message with
    | Ok true => {| code := 200; payload := Message "Quote sent successfully" |}
    | Ok false => {| code := 500; payload := Message "Failed to send email" |}
    | Throw _ => {| code := 500; payload := Message "Failed to send quote" |}
    end.

(** [GET /api/currencies]: what the currency hook receives. *)
Definition getCurrenciesData (s : Storage.Store) : CurrencyHook.CurrencyData :=
  {| CurrencyHook.data_currencies := Storage.getCurrencies false s;
     CurrencyHook.data_baseCurrency := Storage.getCurrentBaseCurrency false s |}.

(** A validator for the four not-null columns of table [quotes] that
    [insertQuoteSchema] keeps: [type] a string, [configuration] any JSON
    value, [finalRate] an integer number, [currency] a string.  Keys of
    the body other than these four are dropped. *)
Definition parseColumns (body : json) : option InsertQuote :=
  match field "type" body, field "configuration" body,
        field "finalRate" body, field "currency" body with
  | Some (JString t), Some c, Some (JNumber (Fin r)), Some (JString cur) =>
      if Qeq_bool (inject_Z (Qfloor r)) r
      then Some {| insert_type := t; insert_configuration := c;
                   insert_finalRate := Fin r; insert_currency := cur |}
      else None
  | _, _, _, _ => None
  end.

End Routes.

(** ** Reference states *)

Module Scenario.

(** The hook after loading the seed catalog (base currency AED) with the
    given display currency selected. *)
Definition seedView (selected : string) : CurrencyHook.State :=
  {| CurrencyHook.selectedCurrency := selected;
     CurrencyHook.currencyData := Some (Routes.getCurrenciesData Storage.seed) |}.

(** A successful answer of the rate API for base currency USD. *)
Definition usdTable : gmap string number :=
  list_to_map
    [ ("USD", decimal 1 0); ("AED", decimal 375 2); ("EUR", decimal 875 3);
      ("GBP", decimal 75 2); ("INR", decimal 88 0) ].

Definition usdFetch : CurrencyService.Fetch :=
  fun _ =>
    Some {| CurrencyService.ok := true; CurrencyService.status := 200;
            CurrencyService.statusText := "OK";
            CurrencyService.body :=
              CurrencyService.JsonData
                {| CurrencyService.api_result := Some "success";
                   CurrencyService.api_error := None;
                   CurrencyService.conversion_rates := Some usdTable |} |}.

(** The store after [POST /api/currencies/update-rates] with base USD. *)
Definition usdStore : Storage.Store :=
  fst (Routes.postUpdateRates usdFetch Storage.noFaults (Some "USD") Storage.seed).

Definition usdView (selected : string) : CurrencyHook.State :=
  {| CurrencyHook.selectedCurrency := selected;
     CurrencyHook.currencyData := Some (Routes.getCurrenciesData usdStore) |}.

End Scenario.

(** ** Vocabulary of the statements *)

(** Distance between two finite numbers is at most [tolerance]. *)
Definition within (tolerance : Q) (a b : number) : Prop :=
  match a, b with
  | Fin p, Fin q => (Qabs (p - q) <= tolerance)%Q
  | _, _ => False
  end.

(** Follows the spec's words (testable properties): once every stored rate
    is quoted per 1 unit of the base currency, the AED -> X rate derived
    by hand is [rate[X] / rate[AED]], and the direct conversion is
    [round(aedAmount * crossRate)]. *)
Definition convertViaCrossRate (st : CurrencyHook.State) (aedAmount : number)
  : option number :=
  match CurrencyHook.findCurrency st "AED",
        CurrencyHook.findCurrency st (CurrencyHook.selectedCurrency st) with
  | Some aed, Some display =>
      Some (Math_round (aedAmount * (parseFloatOf (currency_rate display) /
                                     parseFloatOf (currency_rate aed)))%num)
  | _, _ => None
  end.

(** The eleven currency ids of the two object literals of the service. *)
Definition supported : gset string :=
  list_to_set ["AED"; "USD"; "EUR"; "GBP"; "INR"; "PKR"; "CAD"; "AUD"; "JPY";
               "CHF"; "CNY"].

(** A refresh of [s] that is a single logical update leaves a store [s']
    in which the rate table and the marker both carry the refresh, or both
    are as they were. *)
Definition landedTogether (rates : gmap string number) (baseCurrency : string)
    (s s' : Storage.Store) : Prop :=
  (Storage.currencies_row s' =
     Some (map (Storage.updateCurrency rates baseCurrency)
               (Storage.getCurrencies false s)) /\
   Storage.base_currency_row s' = Some baseCurrency)
  \/
  (Storage.currencies_row s' = Storage.currencies_row s /\
   Storage.base_currency_row s' = Storage.base_currency_row s).

Definition failedWrite : string := "Failed to update currency rates".

Definition isString (v : option json) : bool :=
  match v with Some (JString _) => true | _ => false end.

Definition isNumber (v : option json) : bool :=
  match v with Some (JNumber _) => true | _ => false end.

Definition isPresent (v : option json) : bool :=
  match v with Some _ => true | None => false end.

(** What a validator derived from the [quotes] table guarantees about a
    body it accepts: the four kept columns are present with the column's
    JSON kind, and the validated data carries their values. *)
Definition validates (parse : json -> option InsertQuote) : Prop :=
  forall body q,
    parse body = Some q ->
    Routes.field "type" body = Some (JString (insert_type q)) /\
    Routes.field "configuration" body = Some (insert_configuration q) /\
    Routes.field "finalRate" body = Some (JNumber (insert_finalRate q)) /\
    Routes.field "currency" body = Some (JString (insert_currency q)).

(** ** Further comparisons on numbers *)

(** [x > y] on numbers. *)
Definition num_gtb (x y : number) : bool :=
  match x, y with
  | NaN, _ | _, NaN => false
  | Fin a, Fin b => negb (Qle_bool a b)
  | Inf s, Inf t => andb (negb s) t
  | Inf s, Fin _ => negb s
  | Fin _, Inf t => t
  end.

(** Order on finite numbers, for statements. *)
Definition num_le (a b : number) : Prop :=
  match a, b with
  | Fin p, Fin q => (p <= q)%Q
  | _, _ => False
  end.

(** ** The calculator components *)

Module Components.

(** The memoised [convertedRate] of both calculator components. *)
Definition convertedRate (st : CurrencyHook.State) (finalRate : number) : number :=
  if num_gtb finalRate (of_Z 0) &&
     negb (Nat.eqb (List.length (CurrencyHook.currencies st)) 0)
  then CurrencyHook.convertFromAED st finalRate
  else of_Z 0.

Module Custom.

Record Configuration : Type := {
  region : option string;
  role : option string;
  seniority : option string;
}.

Record QuoteData : Type := {
  type : string;
  configuration : Configuration;
  finalRate : number;
  currency : string;
  originalCalculation : Calculator.CustomRate;
}.

(** [handleSendQuote]: the argument handed to [onSendQuote], if any. *)
Definition handleSendQuote (d : Calculator.Data) (st : CurrencyHook.State)
    (region role seniority : string) : option QuoteData :=
  let calculation := Calculator.calculateCustomRate d region role seniority in
  if num_gtb (Calculator.finalRate calculation) (of_Z 0) then
    Some {| type := "custom";
            configuration :=
              {| Custom.region := region_name <$> Calculator.findRegion d region;
                 Custom.role := role_name <$> Calculator.findCustomRole d role;
                 Custom.seniority :=
                   seniority_name <$> Calculator.findSeniority d seniority |};
            finalRate := convertedRate st (Calculator.finalRate calculation);
            currency := CurrencyHook.selectedCurrency st;
            originalCalculation := calculation |}
  else None.

End Custom.

Module SWAT.

Definition getDurationDiscount (value : string) : string :=
  let duration := parseInt value in
  if num_eqb duration (of_Z 1) then "No Discount"
  else if num_eqb duration (of_Z 2) then "-5% Discount"
  else if num_eqb duration (of_Z 3) then "-10% Discount"
  else if num_geb duration (of_Z 4) then "-15% Discount"
  else "No Discount".

(** [toString] is the conversion of a number to a string that the
    template literal applies to [days]. *)
Definition getWorkloadDaysPerWeek (toString : number -> string)
    (percentage : string) : string :=
  let percent := parseInt percentage in
  let days := Math_round ((percent / of_Z 100) * of_Z 5)%num in
  toString days ++ " day" ++
  (if negb (num_eqb days (of_Z 1)) then "s" else "") ++ "/week".

Record Configuration : Type := {
  role : option string;
  workload : string;
  duration : string;
  seniority : option string;
}.

Record QuoteData : Type := {
  type : string;
  configuration : Configuration;
  finalRate : number;
  currency : string;
  originalCalculation : Calculator.SWATRate;
}.

Definition handleSendQuote (d : Calculator.Data) (st : CurrencyHook.State)
    (role workload duration seniority : string) : option QuoteData :=
  let calculation :=
    Calculator.calculateSWATRate d role workload duration seniority in
  if num_gtb (Calculator.swat_finalRate calculation) (of_Z 0) then
    Some {| type := "swat";
            configuration :=
              {| SWAT.role := role_name <$> Calculator.findSwatRole d role;
                 SWAT.workload := workload;
                 SWAT.duration := duration;
                 SWAT.seniority :=
                   seniority_name <$> Calculator.findSeniority d seniority |};
            finalRate := convertedRate st (Calculator.swat_finalRate calculation);
            currency := CurrencyHook.selectedCurrency st;
            originalCalculation := calculation |}
  else None.

End SWAT.

End Components.

(** ** The theme context (ThemeProvider) *)

Module Theme.

(** The provider's two state cells together with the parts of the browser
    it reads and writes: the [theme] entry of [localStorage], the [dark]
    class of the document element, the [prefers-color-scheme: dark] media
    query, and whether the provider's change listener is registered. *)
Record State : Type := {
  isDarkMode : bool;
  isLoading : bool;
  savedTheme : option string;
  darkClass : bool;
  prefersDark : bool;
  listening : bool;
}.

Inductive Event : Type :=
| Mount                          (* the effect runs *)
| Unmount                        (* its cleanup runs *)
| ToggleTheme
| SystemChange (matches : bool). (* the media query changes *)

(** Truthiness of [localStorage.getItem('theme')]. *)
Definition hasSavedTheme (s : State) : bool :=
  match savedTheme s with
  | Some t => negb (String.eqb t "")
  | None => false
  end.

Definition mount (s : State) : State :=
  let shouldBeDark :=
    match savedTheme s with
    | Some t => if String.eqb t "" then prefersDark s else String.eqb t "dark"
    | None => prefersDark s
    end in
  {| isDarkMode := shouldBeDark; isLoading := false;
     savedTheme := savedTheme s; darkClass := shouldBeDark;
     prefersDark := prefersDark s; listening := true |}.

Definition unmount (s : State) : State :=
  {| isDarkMode := isDarkMode s; isLoading := isLoading s;
     savedTheme := savedTheme s; darkClass := darkClass s;
     prefersDark := prefersDark s; listening := false |}.

Definition toggleTheme (s : State) : State :=
  let newDarkMode := negb (isDarkMode s) in
  {| isDarkMode := newDarkMode; isLoading := isLoading s;
     savedTheme := Some (if newDarkMode then "dark" else "light");
     darkClass := newDarkMode;
     prefersDark := prefersDark s; listening := listening s |}.

(** The media query changes; [handleChange] runs if it is registered. *)
Definition systemChange (matches : bool) (s : State) : State :=
  if listening s && negb (hasSavedTheme s) then
    {| isDarkMode := matches; isLoading := isLoading s;
       savedTheme := savedTheme s; darkClass := matches;
       prefersDark := matches; listening := listening s |}
  else
    {| isDarkMode := isDarkMode s; isLoading := isLoading s;
       savedTheme := savedTheme s; darkClass := darkClass s;
       prefersDark := matches; listening := listening s |}.

Definition step (s : State) (e : Event) : State :=
  match e with
  | Mount => mount s
  | Unmount => unmount s
  | ToggleTheme => toggleTheme s
  | SystemChange matches => systemChange matches s
  end.

Definition run (events : list Event) (s : State) : State :=
  fold_left step events s.

End Theme.

(** ** The catalog rows of the store *)

Record ChoiceOption : Type := {
  option_id : string;
  option_label : string;
  option_value : string;
}.

Module Database.

(** The store of [Storage] together with the remaining rows of the table:
    keys [regions], [roles], [seniority_levels], [workload_options] and
    [duration_options]. *)
Record Rows : Type := {
  core : Storage.Store;
  regions_row : option (list Region);
  roles_row : option (list Role);
  seniority_levels_row : option (list SeniorityLevel);
  workload_options_row : option (list ChoiceOption);
  duration_options_row : option (list ChoiceOption);
}.

(** Each getter takes whether its [select] call fails. *)
Definition getRegions (fails : bool) (db : Rows) : list Region :=
  if fails then [] else
  match regions_row db with Some value => value | None => [] end.

Definition getRoles (fails : bool) (db : Rows) : list Role :=
  if fails then [] else
  match roles_row db with Some value => value | None => [] end.

Definition getRolesByCategory (fails : bool) (category : string) (db : Rows)
  : list Role :=
  List.filter (fun role => String.eqb (role_category role) category)
              (getRoles fails db).

Definition getSeniorityLevels (fails : bool) (db : Rows) : list SeniorityLevel :=
  if fails then [] else
  match seniority_levels_row db with Some value => value | None => [] end.

Definition choice (id label value : string) : ChoiceOption :=
  {| option_id := id; option_label := label; option_value := value |}.

Definition getWorkloadOptions (fails : bool) (db : Rows) : list ChoiceOption :=
  match (if fails then None else workload_options_row db) with
  | None =>
      [ choice "25" "25%" "25"; choice "50" "50%" "50";
        choice "75" "75%" "75"; choice "100" "100%" "100" ]
  | Some value => value
  end.

Definition getDurationOptions (fails : bool) (db : Rows) : list ChoiceOption :=
  match (if fails then None else duration_options_row db) with
  | None =>
      [ choice "1" "1 Month" "1"; choice "2" "2 Months" "2";
        choice "3" "3 Months" "3"; choice "4" "4+ Months" "4" ]
  | Some value => value
  end.

(** An upsert of one of these rows; a failed upsert leaves the row. *)
Definition upsertRow {A : Type} (fails : bool) (value : A) (row : option A)
  : option A :=
  if fails then row else Some value.

(** [initializeData]: seven upserts, one per key; an upsert that reports
    an error is logged and the loop goes on.  [fails] tells which keys'
    upserts fail. *)
Definition initializeData (fails : string -> bool) (db : Rows) : Rows :=
  let workloadOptions :=
    [ choice "25" "25%" "25"; choice "50" "50%" "50";
      choice "75" "75%" "75"; choice "100" "100%" "100" ] in
  let durationOptions :=
    [ choice "1" "1 Month" "1"; choice "2" "2 Months" "2";
      choice "3" "3 Months" "3"; choice "4" "4+ Months" "4" ] in
  let core1 :=
    fst (Storage.upsertCurrencies (fails "currencies") Seed.currencies (core db)) in
  let core2 :=
    fst (Storage.upsertBaseCurrency (fails "current_base_currency") "AED" core1) in
  {| core := core2;
     regions_row := upsertRow (fails "regions") Seed.regions (regions_row db);
     roles_row :=
       upsertRow (fails "roles") (Seed.customRoles ++ Seed.swatRoles)%list
                 (roles_row db);
     seniority_levels_row :=
       upsertRow (fails "seniority_levels") Seed.seniorityLevels
                 (seniority_levels_row db);
     workload_options_row :=
       upsertRow (fails "workload_options") workloadOptions
                 (workload_options_row db);
     duration_options_row :=
       upsertRow (fails "duration_options") durationOptions
                 (duration_options_row db) |}.

(** What [useCalculator] holds once its four catalog queries have been
    answered by the routes; each flag tells whether that route's read of
    the store failed. *)
Definition loadData (regionsFail customFail swatFail seniorityFail : bool)
    (db : Rows) : Calculator.Data :=
  {| Calculator.regions := getRegions regionsFail db;
     Calculator.customRoles := getRolesByCategory customFail "custom" db;
     Calculator.swatRoles := getRolesByCategory swatFail "swat" db;
     Calculator.seniorityLevels := getSeniorityLevels seniorityFail db |}.

End Database.

(** ** Vocabulary of the further statements *)

(** The document class agrees with the state and loading is over. *)
Definition themeShown (s : Theme.State) : Prop :=
  Theme.darkClass s = Theme.isDarkMode s /\ Theme.isLoading s = false.

(** The saved theme names the current mode. *)
Definition themeSaved (s : Theme.State) : Prop :=
  Theme.savedTheme s = Some (if Theme.isDarkMode s then "dark" else "light").

(** Number of [ToggleTheme] events. *)
Fixpoint toggles (events : list Theme.Event) : nat :=
  match events with
  | Theme.ToggleTheme :: rest => S (toggles rest)
  | _ :: rest => toggles rest
  | [] => O
  end.

(** * Properties *)

(** ** Numbers *)

Lemma Math_round_nearest (q : Q) :
  exists z : Z, Math_round (Fin q) = of_Z z /\
                (inject_Z z - (1 # 2) <= q)%Q /\ (q < inject_Z z + (1 # 2))%Q.
Proof.
  exists (Qfloor (q + (1 # 2))). split; [reflexivity|].
  pose proof (Qfloor_le (q + (1 # 2))) as Hlo.
  pose proof (Qlt_floor (q + (1 # 2))) as Hhi.
  rewrite inject_Z_plus in Hhi. change (inject_Z 1) with 1%Q in Hhi.
  split; lra.
Qed.

Lemma num_eqb_of_Z (a b : Z) : num_eqb (of_Z a) (of_Z b) = Z.eqb a b.
Proof.
  unfold num_eqb, of_Z, Qeq_bool, inject_Z; simpl.
  rewrite !Z.mul_1_r. reflexivity.
Qed.

Lemma num_geb_of_Z (a b : Z) : num_geb (of_Z a) (of_Z b) = Z.leb b a.
Proof.
  unfold num_geb, of_Z, Qle_bool, inject_Z; simpl.
  rewrite !Z.mul_1_r. reflexivity.
Qed.

(** [parseInt] yields an integer or NaN. *)
Lemma parseInt_cases (s : string) :
  parseInt s = NaN \/ exists z : Z, parseInt s = of_Z z.
Proof.
  unfold parseInt, parseIntChars.
  destruct (readSign _) as [neg l1].
  destruct (startsWith "0x" l1 || startsWith "0X" l1);
    destruct (readDigits _ _ _ _) as [[v n] rest];
    destruct n; eauto.
Qed.

Lemma isEmpty_false (s : string) : s <> "" -> Calculator.isEmpty s = false.
Proof. intros H. unfold Calculator.isEmpty. now apply String.eqb_neq. Qed.

Lemma string_eqb_false (a b : string) : a <> b -> String.eqb a b = false.
Proof. apply String.eqb_neq. Qed.

(** ** The calculators *)

Section CalculatorProperties.
Import Calculator.
Variable d : Data.



End CalculatorProperties.



(** ** Currency conversion *)

Section ConversionProperties.
Import CurrencyHook.
Variable st : State.


Lemma convertFromAED_passthrough (amount : number) :
  selectedCurrency st = "AED" \/
  findCurrency st (selectedCurrency st) = None \/
  (currentBaseCurrency st <> "AED" /\
   findCurrency st (currentBaseCurrency st) = None) ->
  convertFromAED st amount = amount.
Proof.
  unfold convertFromAED. intros [-> | [-> | [Hb ->]]].
  - reflexivity.
  - now destruct (String.eqb _ _).
  - rewrite (string_eqb_false _ _ Hb).
    destruct (String.eqb _ _); [reflexivity|].
    now destruct (findCurrency st (selectedCurrency st)).
Qed.

Lemma convertToAED_passthrough (amount : number) (fromCurrency : string) :
  fromCurrency = "AED" \/ findCurrency st fromCurrency = None ->
  convertToAED st amount fromCurrency = amount.
Proof.
  unfold convertToAED. intros [-> | ->]; [reflexivity|].
  now destruct (String.eqb _ _).
Qed.

End ConversionProperties.


(** ** Round trip through a display currency *)

Lemma Qzero_bool_pos (r : Q) : (0 < r)%Q -> Qzero_bool r = false.
Proof.
  unfold Qzero_bool, Qlt. simpl. intros H. apply Z.eqb_neq. lia.
Qed.

(** Rounding [x * r], dividing by [r] and rounding again. *)
Lemma round_trip_Q (x r : Q) :
  (0 < r)%Q ->
  let y := inject_Z (Qfloor (x * r + (1 # 2))) in
  let z := inject_Z (Qfloor (y / r + (1 # 2))) in
  (Qabs (z - x) <= (1 # 2) + (1 # 2) / r)%Q.
Proof.
  intros Hr y z.
  assert (Hrne : ~ (r == 0)%Q) by (intros E; rewrite E in Hr; lra).
  pose proof (Qfloor_le (x * r + (1 # 2))) as Hy1.
  pose proof (Qlt_floor (x * r + (1 # 2))) as Hy2.
  pose proof (Qfloor_le (y / r + (1 # 2))) as Hz1.
  pose proof (Qlt_floor (y / r + (1 # 2))) as Hz2.
  rewrite inject_Z_plus in Hy2, Hz2.
  change (inject_Z 1) with 1%Q in Hy2, Hz2.
  fold y in Hy1, Hy2. fold z in Hz1, Hz2.
  set (u := (y / r)%Q) in *. set (e := ((1 # 2) / r)%Q).
  assert (Hu : (u * r == y)%Q) by (unfold u; field; exact Hrne).
  assert (He : (e * r == 1 # 2)%Q) by (unfold e; field; exact Hrne).
  assert (Hux : (u - x <= e)%Q).
  { apply Qnot_lt_le. intros Hlt.
    assert (Hm : (e * r < (u - x) * r)%Q) by (apply Qmult_lt_compat_r; assumption).
    assert (Hd : ((u - x) * r == y - x * r)%Q) by (rewrite <- Hu; ring).
    rewrite He, Hd in Hm. lra. }
  assert (Hxu : (x - u <= e)%Q).
  { apply Qnot_lt_le. intros Hlt.
    assert (Hm : (e * r < (x - u) * r)%Q) by (apply Qmult_lt_compat_r; assumption).
    assert (Hd : ((x - u) * r == x * r - y)%Q) by (rewrite <- Hu; ring).
    rewrite He, Hd in Hm. lra. }
  apply Qabs_Qle_condition. split; lra.
Qed.

Lemma half_over_rate (r : Q) :
  (0 < r)%Q -> (0 < (1 # 2) / r)%Q /\ ((1 <= r)%Q -> ((1 # 2) / r <= 1 # 2)%Q).
Proof.
  intros Hr.
  assert (Hrne : ~ (r == 0)%Q) by (intros E; rewrite E in Hr; lra).
  set (e := ((1 # 2) / r)%Q).
  assert (He : (e * r == 1 # 2)%Q) by (unfold e; field; exact Hrne).
  assert (Hpos : (0 < e)%Q).
  { unfold e. apply Qlt_shift_div_l; [assumption | lra]. }
  split; [exact Hpos|].
  intros H1. apply Qnot_lt_le. intros Hlt.
  assert (Hm : (e * 1 <= e * r)%Q).
  { rewrite !(Qmult_comm e). apply Qmult_le_compat_r; lra. }
  rewrite He in Hm. lra.
Qed.




(** ** Conversion under a base currency other than AED *)

(** C5 at a failing input.  After a refresh with base USD (1 USD = 3.75
    AED = 0.875 EUR), the two-step formula of [convertFromAED] turns 120
    AED into 120 USD and into 105 EUR, whereas the cross rates give 32 USD
    and 28 EUR: dividing by the base currency's own rate, which is 1 after
    such a refresh, converts nothing. *)
Theorem convertFromAED_cross_rate_mismatch :
  CurrencyHook.currentBaseCurrency (Scenario.usdView "USD") = "USD" /\
  CurrencyHook.getExchangeRate (Scenario.usdView "USD") = of_Z 1 /\
  CurrencyHook.convertFromAED (Scenario.usdView "USD") (of_Z 120) = of_Z 120 /\
  convertViaCrossRate (Scenario.usdView "USD") (of_Z 120) = Some (of_Z 32) /\
  CurrencyHook.convertFromAED (Scenario.usdView "EUR") (of_Z 120) = of_Z 105 /\
  convertViaCrossRate (Scenario.usdView "EUR") (of_Z 120) = Some (of_Z 28).
Proof.
  split; [reflexivity|]. split; [reflexivity|].
  split; [vm_compute; reflexivity|]. split; [vm_compute; reflexivity|].
  split; vm_compute; reflexivity.
Qed.

(** ** Rate refresh *)

Section RefreshProperties.
Import CurrencyService.

Lemma dom_fallbackRates : dom fallbackRates = supported.
Proof. unfold fallbackRates. rewrite dom_list_to_map_L. reflexivity. Qed.

Lemma dom_extractRates (live : gmap string number) :
  dom (extractRates live) = supported.
Proof. unfold extractRates. rewrite dom_list_to_map_L. reflexivity. Qed.

Lemma lookup_extractRates (live : gmap string number) (id : string) (c : number) :
  fallbackRates !! id = Some c ->
  extractRates live !! id = Some (orNumber (live !! id) c).
Proof.
  intros H. apply elem_of_list_to_map_2 in H.
  repeat (apply elem_of_cons in H as [H | H];
          [injection H as -> ->; reflexivity|]).
  apply elem_of_nil in H. contradiction.
Qed.

Local Ltac fallback_case :=
  exists fallbackRates; repeat split; auto using dom_fallbackRates;
  intros; simplify_eq; auto; try congruence; try (intuition congruence).

(** C6.  [updateExchangeRates] always returns a mapping, never an error.
    The mapping is over exactly the eleven supported currencies.  It is the
    fixed fallback table when the request fails, the status is not a
    success, the body is not a JSON document carrying [result = success],
    or the rate table is missing; otherwise each supported currency maps
    to the fetched rate, or to its fallback constant when the fetched rate
    is missing or falsy. *)
Theorem updateExchangeRates_never_fails (fetch : Fetch) (baseCurrency : string) :
  exists rates : gmap string number,
    updateExchangeRates fetch baseCurrency = Ok rates /\
    dom rates = supported /\
    (fetch (url baseCurrency) = None -> rates = fallbackRates) /\
    (forall response, fetch (url baseCurrency) = Some response ->
       (ok response = false -> rates = fallbackRates) /\
       (body response = Unparseable \/ body response = JsonNull ->
        rates = fallbackRates) /\
       (forall data, body response = JsonData data ->
          (api_result data <> Some "success" -> rates = fallbackRates) /\
          (conversion_rates data = None -> rates = fallbackRates) /\
          (forall live, ok response = true ->
             api_result data = Some "success" ->
             conversion_rates data = Some live ->
             forall id c, fallbackRates !! id = Some c ->
                          rates !! id = Some (orNumber (live !! id) c)))) /\
    fallbackRates =
      list_to_map
        [ ("AED", decimal 10 1); ("USD", decimal 272 3); ("EUR", decimal 25 2);
          ("GBP", decimal 215 3); ("INR", decimal 225 1); ("PKR", decimal 755 1);
          ("CAD", decimal 37 2); ("AUD", decimal 41 2); ("JPY", decimal 402 1);
          ("CHF", decimal 24 2); ("CNY", decimal 195 2) ].
Proof.
  unfold updateExchangeRates, fetchRates, try_catch, bind.
  destruct (fetch (url baseCurrency)) as [response|]; [|fallback_case].
  destruct (ok response) eqn:Hok; simpl; [|fallback_case].
  destruct (body response) as [| |data] eqn:Hbody; [fallback_case..|].
  destruct (bool_decide (api_result data = Some "success")) eqn:Hres; simpl.
  2:{ apply bool_decide_eq_false in Hres. fallback_case. }
  apply bool_decide_eq_true in Hres.
  destruct (conversion_rates data) as [live|] eqn:Hrates; [|fallback_case].
  exists (extractRates live).
  split; [reflexivity|]. split; [apply dom_extractRates|].
  split; [discriminate|]. split; [|reflexivity].
  intros ? [= <-]. split; [congruence|].
  split; [intros [?|?]; congruence|].
  intros data' Hdata'. assert (data' = data) as -> by congruence.
  split; [congruence|]. split; [congruence|].
  intros live' _ _ Hlive' id c Hid.
  assert (live' = live) as -> by congruence.
  now apply lookup_extractRates.
Qed.

End RefreshProperties.

Lemma updateExchangeRates_never_fails_witness :
  CurrencyService.updateExchangeRates (fun _ => None) "USD" =
    Ok CurrencyService.fallbackRates /\
  (exists rates,
     CurrencyService.updateExchangeRates Scenario.usdFetch "USD" = Ok rates /\
     rates !! "AED" = Some (decimal 375 2) /\
     rates !! "PKR" = Some (decimal 755 1)).
Proof.
  split.
  - destruct (updateExchangeRates_never_fails (fun _ => None) "USD")
      as (rates & Hrun & _ & Hnet & _).
    rewrite Hrun, (Hnet eq_refl). reflexivity.
  - destruct (updateExchangeRates_never_fails Scenario.usdFetch "USD")
      as (rates & Hrun & _ & _ & Hresp & _).
    exists rates. split; [exact Hrun|].
    destruct (Hresp _ eq_refl) as (_ & _ & Hdata).
    destruct (Hdata _ eq_refl) as (_ & _ & Hlive).
    split.
    + rewrite (Hlive _ eq_refl eq_refl eq_refl "AED" (decimal 10 1) eq_refl).
      reflexivity.
    + rewrite (Hlive _ eq_refl eq_refl eq_refl "PKR" (decimal 755 1) eq_refl).
      reflexivity.
Defined.

(** ** Resolution misses *)

Lemma calculateSWATRate_miss (d : Calculator.Data)
    (roleId workloadPercent durationMonths seniorityId : string) :
  Calculator.findSwatRole d roleId = None \/
  Calculator.findSeniority d seniorityId = None \/
  workloadPercent = "" \/ durationMonths = "" ->
  Calculator.calculateSWATRate d roleId workloadPercent durationMonths seniorityId
  = Calculator.zeroSWATRate.
Proof.
  unfold Calculator.calculateSWATRate.
  intros [-> | [-> | [-> | ->]]]; [reflexivity | | |].
  - now destruct (Calculator.findSwatRole d roleId).
  - now destruct (Calculator.findSwatRole d roleId),
      (Calculator.findSeniority d seniorityId).
  - destruct (Calculator.findSwatRole d roleId),
      (Calculator.findSeniority d seniorityId); try reflexivity.
    now rewrite Bool.orb_true_r.
Qed.

Lemma calculateCustomRate_miss (d : Calculator.Data)
    (regionId roleId seniorityId : string) :
  Calculator.findRegion d regionId = None \/
  Calculator.findCustomRole d roleId = None \/
  Calculator.findSeniority d seniorityId = None ->
  Calculator.calculateCustomRate d regionId roleId seniorityId
  = Calculator.zeroCustomRate.
Proof.
  unfold Calculator.calculateCustomRate.
  intros [-> | [-> | ->]]; [reflexivity | |].
  - now destruct (Calculator.findRegion d regionId).
  - now destruct (Calculator.findRegion d regionId),
      (Calculator.findCustomRole d roleId).
Qed.

(** C7.  A resolution miss never raises: [calculateCustomRate] and
    [calculateSWATRate] return their all-zero records when an identifier
    does not resolve (the SWAT calculator also when the workload or the
    duration string is empty), and [convertFromAED] and [convertToAED]
    return the amount unchanged when the currency is AED or a referenced
    currency record is absent. *)
Theorem resolution_miss_fallbacks (d : Calculator.Data) (st : CurrencyHook.State) :
  (forall regionId roleId seniorityId,
     Calculator.findRegion d regionId = None \/
     Calculator.findCustomRole d roleId = None \/
     Calculator.findSeniority d seniorityId = None ->
     Calculator.calculateCustomRate d regionId roleId seniorityId =
       {| Calculator.baseRate := of_Z 0; Calculator.regionalMultiplier := of_Z 0;
          Calculator.seniorityMultiplier := of_Z 0;
          Calculator.finalRate := of_Z 0 |}) /\
  (forall roleId workloadPercent durationMonths seniorityId,
     Calculator.findSwatRole d roleId = None \/
     Calculator.findSeniority d seniorityId = None \/
     workloadPercent = "" \/ durationMonths = "" ->
     Calculator.calculateSWATRate d roleId workloadPercent durationMonths
                                  seniorityId =
       {| Calculator.swat_baseRate := of_Z 0;
          Calculator.baseWithSeniority := of_Z 0;
          Calculator.afterWorkload := of_Z 0;
          Calculator.durationDiscount := of_Z 0;
          Calculator.swat_finalRate := of_Z 0 |}) /\
  (forall amount,
     CurrencyHook.selectedCurrency st = "AED" \/
     CurrencyHook.findCurrency st (CurrencyHook.selectedCurrency st) = None \/
     (CurrencyHook.currentBaseCurrency st <> "AED" /\
      CurrencyHook.findCurrency st (CurrencyHook.currentBaseCurrency st) = None) ->
     CurrencyHook.convertFromAED st amount = amount) /\
  (forall amount fromCurrency,
     fromCurrency = "AED" \/ CurrencyHook.findCurrency st fromCurrency = None ->
     CurrencyHook.convertToAED st amount fromCurrency = amount).
Proof.
  split; [|split; [|split]].
  - intros. now apply calculateCustomRate_miss.
  - intros. now apply calculateSWATRate_miss.
  - intros. now apply convertFromAED_passthrough.
  - intros. now apply convertToAED_passthrough.
Qed.

Lemma resolution_miss_fallbacks_witness :
  Calculator.calculateCustomRate Seed.data "" "qa-engineer" "lead" =
    Calculator.zeroCustomRate /\
  Calculator.calculateSWATRate Seed.data "swat-devops" "" "2" "lead" =
    Calculator.zeroSWATRate /\
  CurrencyHook.convertFromAED (Scenario.seedView "PKR") (of_Z 193) = of_Z 193 /\
  CurrencyHook.convertToAED (Scenario.seedView "PKR") (of_Z 193) "AED" = of_Z 193.
Proof.
  destruct (resolution_miss_fallbacks Seed.data (Scenario.seedView "PKR"))
    as (Hcustom & Hswat & Hfrom & Hto).
  split; [|split; [|split]].
  - apply Hcustom. left. reflexivity.
  - apply Hswat. right. right. left. reflexivity.
  - apply Hfrom. right. left. reflexivity.
  - apply Hto. left. reflexivity.
Defined.

(** ** Persisting a refresh *)

Section StorageProperties.
Import Storage.

(** C8, as amended.  When the catalog read succeeds, the two writes of
    [updateCurrencyRates] land independently of each other: with no
    failing write the rate table and the marker both carry the refresh and
    the call succeeds; with both writes failing both keep their previous
    values and the call throws; with exactly one write failing the call
    throws and only the other write has landed.  Quotes are not touched. *)
Theorem updateCurrencyRates_independent_writes
    (rates : gmap string number) (baseCurrency : string) (f : Faults) (s : Store) :
  select_currencies_fails f = false ->
  let s' := fst (updateCurrencyRates rates baseCurrency f s) in
  let outcome := snd (updateCurrencyRates rates baseCurrency f s) in
  let refreshed :=
    Some (map (updateCurrency rates baseCurrency) (getCurrencies false s)) in
  quote_rows s' = quote_rows s /\
  (upsert_currencies_fails f = false -> upsert_base_currency_fails f = false ->
   outcome = Ok tt /\ currencies_row s' = refreshed /\
   base_currency_row s' = Some baseCurrency) /\
  (upsert_currencies_fails f = true -> upsert_base_currency_fails f = true ->
   outcome = Throw (Error failedWrite) /\ s' = s) /\
  (upsert_currencies_fails f = true -> upsert_base_currency_fails f = false ->
   outcome = Throw (Error failedWrite) /\
   currencies_row s' = currencies_row s /\
   base_currency_row s' = Some baseCurrency) /\
  (upsert_currencies_fails f = false -> upsert_base_currency_fails f = true ->
   outcome = Throw (Error failedWrite) /\ currencies_row s' = refreshed /\
   base_currency_row s' = base_currency_row s).
Proof.
  intros Hread. unfold updateCurrencyRates. rewrite Hread.
  unfold upsertCurrencies, upsertBaseCurrency.
  destruct (upsert_currencies_fails f), (upsert_base_currency_fails f);
    cbn; repeat split; intros; try discriminate; try reflexivity.
Qed.

Lemma updateCurrencyRates_independent_writes_witness :
  let s' := fst (updateCurrencyRates Scenario.usdTable "USD" noFaults seed) in
  select_currencies_fails noFaults = false /\
  getCurrentBaseCurrency false s' = "USD" /\
  (parseFloatOf ∘ currency_rate) <$> getCurrencies false s' =
    [decimal 375 2; decimal 1 0; decimal 875 3; decimal 75 2; decimal 88 0].
Proof.
  intros s'. split; [reflexivity|].
  destruct (updateCurrencyRates_independent_writes Scenario.usdTable "USD"
              noFaults seed eq_refl) as (_ & Hboth & _).
  destruct (Hboth eq_refl eq_refl) as (_ & Htable & Hmarker).
  fold s' in Htable, Hmarker.
  unfold getCurrentBaseCurrency, getCurrencies.
  rewrite Htable, Hmarker. split; reflexivity.
Defined.

(** C8, as stated, fails when the marker write is the only one to fail:
    the seed store ends with rates quoted per 1 USD under the marker AED,
    and the call throws. *)
Lemma updateCurrencyRates_leaves_mismatch :
  let f := {| select_currencies_fails := false;
              upsert_currencies_fails := false;
              upsert_base_currency_fails := true |} in
  let s' := fst (updateCurrencyRates Scenario.usdTable "USD" f seed) in
  snd (updateCurrencyRates Scenario.usdTable "USD" f seed) =
    Throw (Error failedWrite) /\
  getCurrentBaseCurrency false s' = "AED" /\
  (parseFloatOf ∘ currency_rate) <$> getCurrencies false s' =
    [decimal 375 2; decimal 1 0; decimal 875 3; decimal 75 2; decimal 88 0] /\
  ~ landedTogether Scenario.usdTable "USD" seed s'.
Proof.
  intros f s'. split; [reflexivity|]. split; [reflexivity|].
  split; [reflexivity|].
  intros [[_ Hmarker] | [Htable _]]; vm_compute in *; discriminate.
Qed.

(** Frame of one refreshed record. *)
Lemma updateCurrency_frame (rates : gmap string number) (baseCurrency : string)
    (c : Currency) :
  let c' := updateCurrency rates baseCurrency c in
  currency_id c' = currency_id c /\
  currency_name c' = currency_name c /\
  currency_symbol c' = currency_symbol c /\
  currency_baseCurrency c' = Some baseCurrency /\
  (rates !! currency_id c = None -> currency_rate c' = currency_rate c) /\
  (forall v, rates !! currency_id c = Some v ->
             currency_rate c' = if truthy v then NumVal v else currency_rate c).
Proof.
  cbn. unfold newRate. repeat split.
  - now intros ->.
  - now intros v ->.
Qed.

(** When the catalog read and the table write succeed, the stored table
    is the previous one, record by record, with only rate and tag
    rewritten. *)
Lemma updateCurrencyRates_frame (rates : gmap string number)
    (baseCurrency : string) (f : Faults) (s : Store) (table : list Currency) :
  select_currencies_fails f = false ->
  upsert_currencies_fails f = false ->
  currencies_row s = Some table ->
  currencies_row (fst (updateCurrencyRates rates baseCurrency f s)) =
    Some (map (updateCurrency rates baseCurrency) table).
Proof.
  intros Hread Hwrite Hrow. unfold updateCurrencyRates, getCurrencies.
  rewrite Hread, Hrow. unfold upsertCurrencies, upsertBaseCurrency.
  rewrite Hwrite. now destruct (upsert_base_currency_fails f).
Qed.

(** C10 at a failing input.  When the read of the [currencies] row reports
    an error, [getCurrencies] yields the empty list; the refresh then
    writes an empty rate table over the five seed currencies and reports
    success. *)
Theorem updateCurrencyRates_failed_read_erases_catalog :
  let f := {| select_currencies_fails := true;
              upsert_currencies_fails := false;
              upsert_base_currency_fails := false |} in
  let s' := fst (updateCurrencyRates Scenario.usdTable "USD" f seed) in
  currency_id <$> getCurrencies false seed = ["AED"; "USD"; "EUR"; "GBP"; "INR"] /\
  snd (updateCurrencyRates Scenario.usdTable "USD" f seed) = Ok tt /\
  currencies_row s' = Some [] /\
  getCurrencies false s' = [].
Proof.
  intros f s'. split; [reflexivity|]. split; [reflexivity|].
  assert (Hrow : currencies_row s' = Some []) by reflexivity.
  split; [exact Hrow|].
  unfold getCurrencies. now rewrite Hrow.
Qed.

End StorageProperties.

(** ** The quote boundary *)

Lemma parseColumns_validates : validates Routes.parseColumns.
Proof.
  intros body q. unfold Routes.parseColumns.
  destruct (Routes.field "type" body) as [[| | |t| |]|]; try discriminate.
  destruct (Routes.field "configuration" body) as [c|]; try discriminate.
  destruct (Routes.field "finalRate" body) as [[| |[r| |]| | |]|]; try discriminate.
  destruct (Routes.field "currency" body) as [[| | |cur| |]|]; try discriminate.
  destruct (Qeq_bool _ _); [|discriminate].
  intros [= <-]. repeat split.
Qed.

Section QuoteBoundary.
Import Routes Storage.
Variable parse : json -> option InsertQuote.
Hypothesis parse_validates : validates parse.

Lemma parse_rejects (body : json) :
  isString (field "type" body) = false \/
  isPresent (field "configuration" body) = false \/
  isNumber (field "finalRate" body) = false \/
  isString (field "currency" body) = false ->
  parse body = None.
Proof.
  intros H. destruct (parse body) as [q|] eqn:Hq; [|reflexivity].
  destruct (parse_validates body q Hq) as (Ht & Hc & Hr & Hcur).
  rewrite Ht, Hc, Hr, Hcur in H. cbn in H.
  destruct H as [H | [H | [H | H]]]; discriminate.
Qed.


End QuoteBoundary.


(** * Further properties *)

(** ** Rounding *)

Lemma Qfloor_unique (y : Q) (n : Z) :
  (inject_Z n <= y)%Q -> (y < inject_Z n + 1)%Q -> Qfloor y = n.
Proof.
  intros Hlo Hhi.
  pose proof (Qfloor_le y) as Hf1. pose proof (Qlt_floor y) as Hf2.
  assert (H1 : (inject_Z (Qfloor y) < inject_Z (n + 1))%Q).
  { rewrite inject_Z_plus. change (inject_Z 1) with 1%Q. lra. }
  assert (H2 : (inject_Z n < inject_Z (Qfloor y + 1))%Q) by lra.
  rewrite <- Zlt_Qlt in H1, H2. lia.
Qed.

(** Scaling a non-negative integer by a factor in [0, 1] and rounding
    stays between 0 and that integer. *)
Lemma round_scaled (n : Z) (f : Q) :
  0 <= n -> (0 <= f)%Q -> (f <= 1)%Q ->
  0 <= Qfloor (inject_Z n * f + (1 # 2)) <= n.
Proof.
  intros Hn Hf0 Hf1.
  assert (Hq : (0 <= inject_Z n)%Q) by (change 0%Q with (inject_Z 0); now rewrite <- Zle_Qle).
  assert (Hp0 : (0 <= inject_Z n * f)%Q) by (apply Qmult_le_0_compat; assumption).
  assert (Hp1 : (inject_Z n * f <= inject_Z n)%Q).
  { pose proof (Qmult_le_compat_r f 1 (inject_Z n) Hf1 Hq). lra. }
  pose proof (Qfloor_le (inject_Z n * f + (1 # 2))) as Hf.
  pose proof (Qlt_floor (inject_Z n * f + (1 # 2))) as Hg.
  split.
  - assert (H : (inject_Z (-1) < inject_Z (Qfloor (inject_Z n * f + (1 # 2))))%Q).
    { rewrite inject_Z_plus in Hg. change (inject_Z 1) with 1%Q in Hg.
      change (inject_Z (-1)) with (-1)%Q. lra. }
    rewrite <- Zlt_Qlt in H. lia.
  - assert (H : (inject_Z (Qfloor (inject_Z n * f + (1 # 2))) < inject_Z (n + 1))%Q).
    { rewrite inject_Z_plus. change (inject_Z 1) with 1%Q. lra. }
    rewrite <- Zlt_Qlt in H. lia.
Qed.

(** ** The calculators, further *)

Lemma discountFor_values (x : number) :
  exists k : Z, Calculator.discountFor x = of_Z k /\ 0 <= k <= 15.
Proof.
  unfold Calculator.discountFor.
  destruct (num_eqb x (of_Z 2)); [exists 5; split; [reflexivity | lia]|].
  destruct (num_eqb x (of_Z 3)); [exists 10; split; [reflexivity | lia]|].
  destruct (num_geb x (of_Z 4)); [exists 15 | exists 0]; split;
    try reflexivity; lia.
Qed.

(** Percentages: [k / 100] lies in [0, 1] for [0 <= k <= 100]. *)
Lemma percent_range (k : Z) :
  0 <= k <= 100 ->
  (0 <= inject_Z k / inject_Z 100)%Q /\ (inject_Z k / inject_Z 100 <= 1)%Q.
Proof.
  intros Hk. unfold Qle, Qdiv, Qmult, Qinv, inject_Z. simpl. lia.
Qed.

Lemma parseInt_empty : parseInt "" = NaN.
Proof. reflexivity. Qed.





(** X3.  The label that the SWAT component shows for a duration names the
    discount that [calculateSWATRate] applies to it: for every duration
    string, the label is the one for the percentage in [durationDiscount]. *)
Theorem getDurationDiscount_matches_calculator (d : Calculator.Data)
    (roleId workloadPercent durationMonths seniorityId : string)
    (role : Role) (seniority : SeniorityLevel) :
  Calculator.findSwatRole d roleId = Some role ->
  Calculator.findSeniority d seniorityId = Some seniority ->
  workloadPercent <> "" -> durationMonths <> "" ->
  let applied :=
    Calculator.durationDiscount
      (Calculator.calculateSWATRate d roleId workloadPercent durationMonths
                                    seniorityId) in
  let label := Components.SWAT.getDurationDiscount durationMonths in
  (applied = of_Z 0 /\ label = "No Discount") \/
  (applied = of_Z 5 /\ label = "-5% Discount") \/
  (applied = of_Z 10 /\ label = "-10% Discount") \/
  (applied = of_Z 15 /\ label = "-15% Discount").
Proof.
  intros Hrole Hsen Hw Hd.
  unfold Calculator.calculateSWATRate, Components.SWAT.getDurationDiscount.
  rewrite Hrole, Hsen, (isEmpty_false _ Hw), (isEmpty_false _ Hd).
  cbn [orb Calculator.durationDiscount]. unfold Calculator.discountFor.
  destruct (parseInt_cases durationMonths) as [-> | [z ->]].
  - left. split; reflexivity.
  - rewrite !num_eqb_of_Z, !num_geb_of_Z.
    destruct (Z.eqb_spec z 1), (Z.eqb_spec z 2), (Z.eqb_spec z 3),
      (Z.leb_spec 4 z); try lia; auto 6.
Qed.

Lemma getDurationDiscount_matches_calculator_witness :
  Calculator.durationDiscount
    (Calculator.calculateSWATRate Seed.data "swat-devops" "100" "3" "mid") = of_Z 10
  /\ Components.SWAT.getDurationDiscount "3" = "-10% Discount".
Proof.
  assert (Hw : "100" <> "") by discriminate.
  assert (Hd : "3" <> "") by discriminate.
  destruct (getDurationDiscount_matches_calculator Seed.data "swat-devops" "100"
              "3" "mid"
              (Seed.role "swat-devops" "DevOps Specialist" "swat" 250)
              {| seniority_id := "mid"; seniority_name := "Mid-Level";
                 seniority_multiplier := "1.00" |}
              eq_refl eq_refl Hw Hd)
    as [[H _] | [[H _] | [H | [H _]]]]; try discriminate H.
  exact H.
Defined.

(** X4.  Days per week shown for a workload: for a percentage between 0 and 100
    the SWAT component shows between 0 and 5 days, and it uses the
    singular "day" exactly for percentages from 10 to 29. *)
Theorem getWorkloadDaysPerWeek_range (toString : number -> string)
    (percentage : string) (p : Z) :
  parseInt percentage = of_Z p -> 0 <= p <= 100 ->
  exists days : Z,
    0 <= days <= 5 /\
    (days = 1 <-> 10 <= p < 30) /\
    Components.SWAT.getWorkloadDaysPerWeek toString percentage =
      toString (of_Z days) ++ " day" ++ (if days =? 1 then "" else "s") ++ "/week".
Proof.
  intros Hp Hr. unfold Components.SWAT.getWorkloadDaysPerWeek. rewrite Hp.
  exists (Qfloor (inject_Z p / inject_Z 100 * inject_Z 5 + (1 # 2))).
  assert (Hfloor : Qfloor (inject_Z p / inject_Z 100 * inject_Z 5 + (1 # 2)) =
                   (p * 10 + 100) / 200).
  { unfold Qfloor, Qdiv, Qmult, Qplus, Qinv, inject_Z. simpl. f_equal. lia. }
  split; [|split].
  - rewrite Hfloor. Z.div_mod_to_equations. lia.
  - rewrite Hfloor. Z.div_mod_to_equations. lia.
  - set (q := (inject_Z p / inject_Z 100 * inject_Z 5 + (1 # 2))%Q).
    change (Math_round (of_Z p / of_Z 100 * of_Z 5)%num) with (of_Z (Qfloor q)).
    rewrite num_eqb_of_Z. now destruct (Z.eqb _ 1).
Qed.

Lemma getWorkloadDaysPerWeek_range_witness :
  exists days : Z,
    0 <= days <= 5 /\
    (days = 1 <-> 10 <= 25 < 30) /\
    Components.SWAT.getWorkloadDaysPerWeek (fun _ => "1") "25" =
      "1" ++ " day" ++ (if days =? 1 then "" else "s") ++ "/week".
Proof.
  assert (Hr : 0 <= 25 <= 100) by lia.
  exact (getWorkloadDaysPerWeek_range (fun _ => "1") "25" 25 eq_refl Hr).
Defined.

(** ** Currency conversion, further *)

Lemma Qzero_bool_nonzero (r : Q) : ~ (r == 0)%Q -> Qzero_bool r = false.
Proof.
  unfold Qzero_bool, Qeq. simpl. intros H. apply Z.eqb_neq. lia.
Qed.

Lemma Math_round_integer (n : Z) : Math_round (of_Z n) = of_Z n.
Proof.
  unfold Math_round, of_Z. do 2 f_equal. apply Qfloor_unique; lra.
Qed.




Lemma seed_rates_positive (c : Currency) :
  In c Seed.currencies ->
  exists r, parseFloatOf (currency_rate c) = Fin r /\ (0 < r)%Q.
Proof.
  intros H. repeat (destruct H as [<- | H];
                    [eexists; split; [reflexivity | reflexivity]|]).
  contradiction.
Qed.




(** X8.  [getCurrencySymbol] never yields the empty string while a currency is
    selected: it is "AED", the record's non-empty symbol, or the selected
    identifier itself. *)
Theorem getCurrencySymbol_nonempty (st : CurrencyHook.State) :
  CurrencyHook.selectedCurrency st <> "" ->
  CurrencyHook.getCurrencySymbol st <> "" /\
  (CurrencyHook.getCurrencySymbol st = "AED" \/
   CurrencyHook.getCurrencySymbol st = CurrencyHook.selectedCurrency st \/
   exists c, CurrencyHook.findCurrency st (CurrencyHook.selectedCurrency st) = Some c /\
             CurrencyHook.getCurrencySymbol st = currency_symbol c).
Proof.
  intros Hsel. unfold CurrencyHook.getCurrencySymbol.
  destruct (String.eqb (CurrencyHook.selectedCurrency st) "AED").
  { split; [discriminate | now left]. }
  destruct (CurrencyHook.findCurrency st _) as [c|].
  - destruct (String.eqb (currency_symbol c) "") eqn:Hsym.
    + split; [exact Hsel | now right; left].
    + apply String.eqb_neq in Hsym. split; [exact Hsym|].
      right. right. now exists c.
  - split; [exact Hsel | now right; left].
Qed.

Lemma getCurrencySymbol_nonempty_witness :
  CurrencyHook.getCurrencySymbol (Scenario.seedView "PKR") <> "".
Proof.
  assert (Hsel : "PKR" <> "") by discriminate.
  exact (proj1 (getCurrencySymbol_nonempty (Scenario.seedView "PKR") Hsel)).
Defined.

(** ** Rate refresh, further *)

Lemma orNumber_truthy (a : option number) (b : number) :
  truthy b = true -> truthy (orNumber a b) = true.
Proof.
  intros Hb. unfold orNumber. destruct a as [v|]; [|exact Hb].
  destruct (truthy v) eqn:Hv; assumption.
Qed.

Lemma updateExchangeRates_shape (fetch : CurrencyService.Fetch)
    (baseCurrency : string) :
  CurrencyService.updateExchangeRates fetch baseCurrency =
    Ok CurrencyService.fallbackRates \/
  exists live,
    CurrencyService.fetchRates fetch baseCurrency =
      Ok (CurrencyService.extractRates live) /\
    CurrencyService.updateExchangeRates fetch baseCurrency =
      Ok (CurrencyService.extractRates live).
Proof.
  unfold CurrencyService.updateExchangeRates, CurrencyService.fetchRates,
    try_catch, bind.
  destruct (fetch _) as [response|]; [|now left].
  destruct (CurrencyService.ok response); simpl; [|now left].
  destruct (CurrencyService.body response) as [| |data]; try now left.
  destruct (bool_decide _); simpl; [|now left].
  destruct (CurrencyService.conversion_rates data) as [live|]; [|now left].
  right. now exists live.
Qed.

Lemma updateExchangeRates_values (fetch : CurrencyService.Fetch)
    (baseCurrency : string) (rates : gmap string number) (id : string)
    (v : number) :
  CurrencyService.updateExchangeRates fetch baseCurrency = Ok rates ->
  rates !! id = Some v ->
  truthy v = true.
Proof.
  intros Hrun Hid.
  destruct (updateExchangeRates_shape fetch baseCurrency) as [H | (live & _ & H)];
    rewrite H in Hrun; injection Hrun as <-;
    apply elem_of_list_to_map_2 in Hid;
    repeat (apply elem_of_cons in Hid as [Hid | Hid];
            [injection Hid as -> ->;
             first [reflexivity | now apply orNumber_truthy]|]);
    apply elem_of_nil in Hid; contradiction.
Qed.

(** X9.  Every rate in the mapping that [updateExchangeRates] returns is truthy
    (neither 0 nor NaN), whatever the rate API answered. *)
Theorem updateExchangeRates_rates_truthy (fetch : CurrencyService.Fetch)
    (baseCurrency : string) (rates : gmap string number) (id : string)
    (v : number) :
  CurrencyService.updateExchangeRates fetch baseCurrency = Ok rates ->
  rates !! id = Some v ->
  truthy v = true.
Proof. apply updateExchangeRates_values. Qed.

Lemma updateExchangeRates_rates_truthy_witness :
  truthy (decimal 755 1) = true.
Proof.
  exact (updateExchangeRates_rates_truthy (fun _ => None) "USD"
           CurrencyService.fallbackRates "PKR" (decimal 755 1) eq_refl eq_refl).
Defined.

Lemma updateExchangeRates_dom (fetch : CurrencyService.Fetch)
    (baseCurrency : string) (rates : gmap string number) :
  CurrencyService.updateExchangeRates fetch baseCurrency = Ok rates ->
  dom rates = supported.
Proof.
  intros Hrun.
  destruct (updateExchangeRates_shape fetch baseCurrency) as [H | (live & _ & H)];
    rewrite H in Hrun; injection Hrun as <-.
  - apply dom_fallbackRates.
  - apply dom_extractRates.
Qed.

(** X10.  A refresh through [POST /api/currencies/update-rates] whose store
    calls all succeed answers 200, sets the marker to the requested base
    (AED when none is given), and rewrites the rate of every catalog
    currency among the eleven supported ones to the number in the answered
    mapping; a catalog currency outside the eleven keeps its rate; ids,
    names and symbols stay. *)
Theorem postUpdateRates_overwrites_supported (fetch : CurrencyService.Fetch)
    (requested : option string) (s : Storage.Store) (table : list Currency) :
  Storage.currencies_row s = Some table ->
  let baseCurrency := match requested with Some b => b | None => "AED" end in
  let s' := fst (Routes.postUpdateRates fetch Storage.noFaults requested s) in
  exists rates table',
    snd (Routes.postUpdateRates fetch Storage.noFaults requested s) =
      {| Routes.code := 200;
         Routes.payload :=
           Routes.RatesUpdated "Exchange rates updated successfully" rates
                               baseCurrency |} /\
    Storage.base_currency_row s' = Some baseCurrency /\
    Storage.currencies_row s' = Some table' /\
    Forall2 (fun c c' =>
               currency_id c' = currency_id c /\
               currency_name c' = currency_name c /\
               currency_symbol c' = currency_symbol c /\
               (currency_id c ∈ supported ->
                exists v, rates !! currency_id c = Some v /\
                          currency_rate c' = NumVal v) /\
               (currency_id c ∉ supported ->
                currency_rate c' = currency_rate c))
            table table'.
Proof.
  intros Htable baseCurrency s'. subst s'. unfold Routes.postUpdateRates.
  fold baseCurrency. remember supported as eleven eqn:Heleven.
  assert (Hsome : exists rates,
             CurrencyService.updateExchangeRates fetch baseCurrency = Ok rates).
  { destruct (updateExchangeRates_shape fetch baseCurrency)
      as [H | (live & _ & H)]; eauto. }
  destruct Hsome as [rates Hrun]. rewrite Hrun.
  exists rates, (map (Storage.updateCurrency rates baseCurrency) table).
  unfold Storage.updateCurrencyRates, Storage.getCurrencies. cbn. rewrite Htable.
  repeat split.
  clear Htable. induction table as [|c table IH]; constructor; [|exact IH].
  subst eleven.
  destruct (updateCurrency_frame rates baseCurrency c)
    as (Hid & Hname & Hsym & _ & Hnone & Hsome).
  split; [exact Hid|]. split; [exact Hname|]. split; [exact Hsym|]. split.
  - intros Hin. rewrite <- (updateExchangeRates_dom _ _ _ Hrun) in Hin.
    apply elem_of_dom in Hin as [v Hv]. exists v. split; [exact Hv|].
    rewrite (Hsome v Hv).
    now rewrite (updateExchangeRates_values _ _ _ _ _ Hrun Hv).
  - intros Hout. rewrite <- (updateExchangeRates_dom _ _ _ Hrun) in Hout.
    apply not_elem_of_dom in Hout. exact (Hnone Hout).
Qed.

Lemma postUpdateRates_overwrites_supported_witness :
  Storage.base_currency_row
    (fst (Routes.postUpdateRates Scenario.usdFetch Storage.noFaults (Some "USD")
                                 Storage.seed)) = Some "USD".
Proof.
  destruct (postUpdateRates_overwrites_supported Scenario.usdFetch (Some "USD")
              Storage.seed Seed.currencies eq_refl)
    as (rates & table' & _ & Hbase & _).
  exact Hbase.
Defined.

(** X11.  A failure of the rate API does not fail the refresh endpoint: when the
    [try] block of [updateExchangeRates] throws and the store calls
    succeed, [POST /api/currencies/update-rates] still answers 200, and it
    stores the fixed fallback rates (which are quoted per 1 AED) under the
    requested base-currency marker. *)
Theorem postUpdateRates_api_failure (fetch : CurrencyService.Fetch)
    (requested : option string) (s : Storage.Store) (e : Exception) :
  let baseCurrency := match requested with Some b => b | None => "AED" end in
  CurrencyService.fetchRates fetch baseCurrency = Throw e ->
  Routes.postUpdateRates fetch Storage.noFaults requested s =
    ({| Storage.currencies_row :=
          Some (map (Storage.updateCurrency CurrencyService.fallbackRates
                                            baseCurrency)
                    (Storage.getCurrencies false s));
        Storage.base_currency_row := Some baseCurrency;
        Storage.quote_rows := Storage.quote_rows s |},
     {| Routes.code := 200;
        Routes.payload :=
          Routes.RatesUpdated "Exchange rates updated successfully"
                              CurrencyService.fallbackRates baseCurrency |}).
Proof.
  intros baseCurrency Hthrow. unfold Routes.postUpdateRates. fold baseCurrency.
  unfold CurrencyService.updateExchangeRates. rewrite Hthrow. reflexivity.
Qed.

Lemma postUpdateRates_api_failure_witness :
  Storage.getCurrentBaseCurrency false
    (fst (Routes.postUpdateRates (fun _ => None) Storage.noFaults (Some "USD")
                                 Storage.seed)) = "USD" /\
  (parseFloatOf ∘ currency_rate) <$>
    Storage.getCurrencies false
      (fst (Routes.postUpdateRates (fun _ => None) Storage.noFaults (Some "USD")
                                   Storage.seed)) =
    [decimal 10 1; decimal 272 3; decimal 25 2; decimal 215 3; decimal 225 1].
Proof.
  rewrite (postUpdateRates_api_failure (fun _ => None) (Some "USD") Storage.seed
             FetchFailed eq_refl).
  split; reflexivity.
Defined.

(** ** The store, further *)

Lemma updateCurrency_idempotent (rates : gmap string number)
    (baseCurrency : string) (c : Currency) :
  Storage.updateCurrency rates baseCurrency
    (Storage.updateCurrency rates baseCurrency c) =
  Storage.updateCurrency rates baseCurrency c.
Proof.
  unfold Storage.updateCurrency, Storage.newRate.
  cbn [currency_id currency_name currency_symbol currency_rate].
  f_equal.
  destruct (rates !! currency_id c) as [v|]; [|reflexivity].
  now destruct (truthy v).
Qed.

(** X12.  Persisting the same mapping under the same base a second time changes
    nothing: [updateCurrencyRates] is idempotent when its store calls
    succeed. *)
Theorem updateCurrencyRates_idempotent (rates : gmap string number)
    (baseCurrency : string) (s : Storage.Store) :
  let once :=
    fst (Storage.updateCurrencyRates rates baseCurrency Storage.noFaults s) in
  Storage.updateCurrencyRates rates baseCurrency Storage.noFaults once =
    (once, Ok tt).
Proof.
  unfold Storage.updateCurrencyRates. cbn. do 3 f_equal.
  rewrite map_map. apply map_ext. intros c. apply updateCurrency_idempotent.
Qed.

Lemma find_map_updateCurrency (rates : gmap string number)
    (baseCurrency id : string) (table : list Currency) :
  find (fun c => String.eqb (currency_id c) id)
       (map (Storage.updateCurrency rates baseCurrency) table) =
  option_map (Storage.updateCurrency rates baseCurrency)
             (find (fun c => String.eqb (currency_id c) id) table).
Proof.
  induction table as [|c table IH]; [reflexivity|].
  cbn [map find]. cbn [Storage.updateCurrency currency_id].
  destruct (String.eqb (currency_id c) id); [reflexivity | exact IH].
Qed.

(** X13.  When the catalog read and the table write succeed, a refresh keeps the
    catalog's currencies in place: the stored table lists the same ids,
    names and symbols in the same order, and an id resolves after the
    refresh exactly when it resolved before, to the refreshed copy of the
    same record. *)
Theorem updateCurrencyRates_keeps_identities (rates : gmap string number)
    (baseCurrency : string) (f : Storage.Faults) (s : Storage.Store)
    (table : list Currency) :
  Storage.select_currencies_fails f = false ->
  Storage.upsert_currencies_fails f = false ->
  Storage.currencies_row s = Some table ->
  exists table',
    Storage.currencies_row
      (fst (Storage.updateCurrencyRates rates baseCurrency f s)) = Some table' /\
    map currency_id table' = map currency_id table /\
    map currency_name table' = map currency_name table /\
    map currency_symbol table' = map currency_symbol table /\
    forall id,
      find (fun c => String.eqb (currency_id c) id) table' =
      option_map (Storage.updateCurrency rates baseCurrency)
                 (find (fun c => String.eqb (currency_id c) id) table).
Proof.
  intros Hread Hwrite Hrow.
  exists (map (Storage.updateCurrency rates baseCurrency) table).
  split; [now apply updateCurrencyRates_frame|].
  rewrite !map_map. repeat split.
  intros id. apply find_map_updateCurrency.
Qed.

Lemma updateCurrencyRates_keeps_identities_witness :
  exists table',
    Storage.currencies_row
      (fst (Storage.updateCurrencyRates Scenario.usdTable "USD" Storage.noFaults
                                        Storage.seed)) = Some table' /\
    map currency_id table' = ["AED"; "USD"; "EUR"; "GBP"; "INR"].
Proof.
  destruct (updateCurrencyRates_keeps_identities Scenario.usdTable "USD"
              Storage.noFaults Storage.seed Seed.currencies
              eq_refl eq_refl eq_refl) as (table' & Hrow & Hids & _).
  exists table'. split; [exact Hrow|]. rewrite Hids. reflexivity.
Defined.

Lemma quote_key_injective (a b : string) : "quote_" ++ a = "quote_" ++ b -> a = b.
Proof. simpl. now intros [=]. Qed.

(** X14.  Two quotes created one after the other are both kept when their
    generated identifiers differ; with the same identifier the second
    upsert replaces the first record. *)
Theorem createQuote_twice (uuid1 now1 uuid2 now2 : string)
    (quote1 quote2 : InsertQuote) (s : Storage.Store) :
  let s1 := fst (Storage.createQuote uuid1 now1 false quote1 s) in
  let s2 := fst (Storage.createQuote uuid2 now2 false quote2 s1) in
  exists stored1 stored2,
    snd (Storage.createQuote uuid1 now1 false quote1 s) = Ok stored1 /\
    snd (Storage.createQuote uuid2 now2 false quote2 s1) = Ok stored2 /\
    quote_id stored1 = uuid1 /\ quote_id stored2 = uuid2 /\
    Storage.quote_rows s2 !! ("quote_" ++ uuid2) = Some stored2 /\
    (uuid1 <> uuid2 ->
     Storage.quote_rows s2 !! ("quote_" ++ uuid1) = Some stored1) /\
    (uuid1 = uuid2 ->
     Storage.quote_rows s2 !! ("quote_" ++ uuid1) = Some stored2).
Proof.
  intros s1 s2. subst s2 s1. unfold Storage.createQuote, Storage.upsertQuote.
  cbn [fst snd quote_id Storage.quote_rows].
  eexists. eexists. split; [reflexivity|]. split; [reflexivity|].
  split; [reflexivity|]. split; [reflexivity|]. split; [|split].
  - apply lookup_insert_eq.
  - intros Hne. rewrite lookup_insert_ne.
    + apply lookup_insert_eq.
    + intros Heq. apply Hne. symmetry. now apply quote_key_injective.
  - intros ->. apply lookup_insert_eq.
Qed.

(** X15.  [POST /api/quotes] has two outcomes only, for every body, validator
    and store-write outcome: 201 with the created quote stored under its
    key, or 400 with the store exactly as it was.  A failed store write is
    answered like a validation failure. *)
Theorem postQuote_outcomes (parse : json -> option InsertQuote)
    (uuid now : string) (fails : bool) (body : json) (s : Storage.Store) :
  let s' := fst (Routes.postQuote parse uuid now fails body s) in
  let response := snd (Routes.postQuote parse uuid now fails body s) in
  (exists quote,
     response = {| Routes.code := 201; Routes.payload := Routes.Created quote |} /\
     fails = false /\ is_Some (parse body) /\
     Storage.quote_rows s' !! ("quote_" ++ uuid) = Some quote) \/
  (response = {| Routes.code := 400;
                 Routes.payload := Routes.Message "Invalid quote data" |} /\
   (fails = true \/ parse body = None) /\
   s' = s).
Proof.
  unfold Routes.postQuote, Storage.createQuote, Storage.upsertQuote.
  destruct (parse body) as [q|]; [|right; auto].
  destruct fails; cbn.
  - right. auto.
  - left. eexists. split; [reflexivity|]. split; [reflexivity|].
    split; [eauto|]. apply lookup_insert_eq.
Qed.

(** ** The catalog rows *)

(** X16.  After [initializeData] with no failing upsert, on any store, each
    getter returns what was seeded: the four regions, the ten custom and
    the six SWAT roles split by category, the five seniority levels, the
    five currencies under marker AED, and the calculator hook loads the
    seed catalog; stored quotes are untouched. *)
Theorem initializeData_roundtrip (db : Database.Rows) :
  let db' := Database.initializeData (fun _ => false) db in
  Database.getRegions false db' = Seed.regions /\
  Database.getRolesByCategory false "custom" db' = Seed.customRoles /\
  Database.getRolesByCategory false "swat" db' = Seed.swatRoles /\
  Database.getSeniorityLevels false db' = Seed.seniorityLevels /\
  Storage.getCurrencies false (Database.core db') = Seed.currencies /\
  Storage.getCurrentBaseCurrency false (Database.core db') = "AED" /\
  Database.loadData false false false false db' = Seed.data /\
  Storage.quote_rows (Database.core db') = Storage.quote_rows (Database.core db).
Proof.
  intros db'. subst db'. repeat split.
Qed.

(** X17.  The role lists that the calculator hook loads are split by category:
    an id resolves in the custom calculator only to a role of category
    [custom] with that id, and in the SWAT calculator only to a role of
    category [swat], whatever the store holds and whichever reads fail. *)
Theorem loaded_roles_by_category (f1 f2 f3 f4 : bool) (db : Database.Rows)
    (id : string) (role : Role) :
  let d := Database.loadData f1 f2 f3 f4 db in
  (Calculator.findCustomRole d id = Some role ->
   role_category role = "custom" /\ role_id role = id) /\
  (Calculator.findSwatRole d id = Some role ->
   role_category role = "swat" /\ role_id role = id).
Proof.
  intros d. subst d.
  unfold Calculator.findCustomRole, Calculator.findSwatRole, Database.loadData,
    Database.getRolesByCategory.
  cbn [Calculator.customRoles Calculator.swatRoles].
  split; intros H; apply find_some in H as [Hin Hid];
    apply filter_In in Hin as [_ Hcat];
    apply String.eqb_eq in Hid; apply String.eqb_eq in Hcat; auto.
Qed.

(** ** The theme context *)

Section ThemeProperties.
Import Theme.

Lemma step_keeps_shown (s : State) (e : Event) :
  themeShown s -> themeShown (step s e).
Proof.
  intros [Hclass Hload]. destruct e as [| | |matches]; cbn.
  - split; reflexivity.
  - split; assumption.
  - split; [reflexivity | assumption].
  - unfold systemChange. destruct (listening s && negb (hasSavedTheme s));
      split; cbn; auto.
Qed.

(** X18.  Once the provider has mounted, the [dark] class of the document
    always agrees with [isDarkMode] and the provider is no longer loading,
    after any sequence of toggles, system preference changes, unmounts and
    remounts. *)
Theorem theme_class_follows_state (s : State) (events : list Event) :
  darkClass (run events (mount s)) = isDarkMode (run events (mount s)) /\
  isLoading (run events (mount s)) = false.
Proof.
  assert (Hinit : themeShown (mount s)) by (split; reflexivity).
  unfold run. generalize dependent (mount s). clear s.
  induction events as [|e events IH]; intros s Hs; [exact Hs|].
  cbn [fold_left]. apply IH. now apply step_keeps_shown.
Qed.

Lemma run_after_choice (events : list Event) (s : State) :
  themeSaved s ->
  themeSaved (run events s) /\
  isDarkMode (run events s) = xorb (isDarkMode s) (Nat.odd (toggles events)).
Proof.
  unfold run. revert s.
  induction events as [|e events IH]; intros s Hs.
  - split; [exact Hs|]. cbn. now rewrite Bool.xorb_false_r.
  - cbn [fold_left].
    assert (Hstep : themeSaved (step s e) /\
                    isDarkMode (step s e) =
                      xorb (isDarkMode s)
                           (match e with ToggleTheme => true | _ => false end)).
    { unfold themeSaved in *. destruct e as [| | |matches]; cbn.
      - rewrite Hs. destruct (isDarkMode s); cbn; split; reflexivity.
      - split; [exact Hs | now rewrite Bool.xorb_false_r].
      - split; [reflexivity | now destruct (isDarkMode s)].
      - unfold systemChange, hasSavedTheme. rewrite Hs.
        destruct (isDarkMode s); cbn; rewrite Bool.andb_false_r; cbn;
          split; try reflexivity; exact Hs. }
    destruct Hstep as [Hsaved Hmode].
    destruct (IH _ Hsaved) as [IH1 IH2]. split; [exact IH1|].
    rewrite IH2, Hmode.
    destruct e; cbn [toggles]; rewrite ?Nat.odd_succ, <- ?Nat.negb_odd;
      destruct (isDarkMode s), (Nat.odd (toggles events)); reflexivity.
Qed.

(** X19.  After the user has toggled the theme once, only further toggles change
    it: whatever system preference changes, unmounts and remounts follow,
    the mode is the toggled one flipped once per later toggle, and the
    saved theme names it. *)
Theorem theme_choice_is_kept (s : State) (events : list Event) :
  let chosen := toggleTheme s in
  isDarkMode (run events chosen) =
    xorb (negb (isDarkMode s)) (Nat.odd (toggles events)) /\
  savedTheme (run events chosen) =
    Some (if isDarkMode (run events chosen) then "dark" else "light").
Proof.
  intros chosen.
  assert (Hsaved : themeSaved chosen) by reflexivity.
  destruct (run_after_choice events chosen Hsaved) as [H1 H2].
  split; [exact H2 | exact H1].
Qed.

(** X20.  The choice survives a reload: a provider that starts afresh (state
    cells reset, any system preference) with the [theme] entry that a
    toggle wrote mounts in the toggled mode, and the document class
    follows. *)
Theorem theme_restored_on_reload (s fresh : State) :
  savedTheme fresh = savedTheme (toggleTheme s) ->
  isDarkMode (mount fresh) = isDarkMode (toggleTheme s) /\
  darkClass (mount fresh) = isDarkMode (toggleTheme s) /\
  savedTheme (mount fresh) = savedTheme (toggleTheme s).
Proof.
  intros Hsaved. unfold mount. cbn [isDarkMode darkClass savedTheme].
  rewrite Hsaved. cbn [toggleTheme savedTheme isDarkMode].
  destruct (negb (isDarkMode s)); repeat split; reflexivity.
Qed.

Lemma theme_restored_on_reload_witness :
  let s := {| isDarkMode := true; isLoading := false; savedTheme := None;
              darkClass := true; prefersDark := true; listening := true |} in
  let fresh := {| isDarkMode := true; isLoading := true;
                  savedTheme := Some "light"; darkClass := false;
                  prefersDark := true; listening := false |} in
  isDarkMode (mount fresh) = false.
Proof.
  intros s fresh.
  destruct (theme_restored_on_reload s fresh eq_refl) as [H _].
  rewrite H. reflexivity.
Defined.

End ThemeProperties.

(** ** The calculator components *)

(** X21.  With an incomplete or unresolved selection both calculator components
    show a converted rate of 0 and [handleSendQuote] hands nothing to
    [onSendQuote]. *)
Theorem incomplete_selection_sends_nothing (d : Calculator.Data)
    (st : CurrencyHook.State) :
  (forall region role seniority,
     Calculator.findRegion d region = None \/
     Calculator.findCustomRole d role = None \/
     Calculator.findSeniority d seniority = None ->
     Components.convertedRate st
       (Calculator.finalRate
          (Calculator.calculateCustomRate d region role seniority)) = of_Z 0 /\
     Components.Custom.handleSendQuote d st region role seniority = None) /\
  (forall role workload duration seniority,
     Calculator.findSwatRole d role = None \/
     Calculator.findSeniority d seniority = None \/
     workload = "" \/ duration = "" ->
     Components.convertedRate st
       (Calculator.swat_finalRate
          (Calculator.calculateSWATRate d role workload duration seniority)) =
       of_Z 0 /\
     Components.SWAT.handleSendQuote d st role workload duration seniority = None).
Proof.
  split.
  - intros region role seniority Hmiss.
    unfold Components.Custom.handleSendQuote.
    rewrite (calculateCustomRate_miss d region role seniority Hmiss).
    split; reflexivity.
  - intros role workload duration seniority Hmiss.
    unfold Components.SWAT.handleSendQuote.
    rewrite (calculateSWATRate_miss d role workload duration seniority Hmiss).
    split; reflexivity.
Qed.

(** ** The quote e-mail endpoint *)

(** X22.  [POST /api/send-quote] answers 400 exactly when [recipientEmail],
    [senderName] or [quoteData] is falsy (absent, null, false, 0, NaN or
    the empty string), and then the mail step plays no part; it answers
    200 exactly when all three are truthy and the mail step reports
    success. *)
Theorem postSendQuote_outcomes
    (deliver : option json -> option json -> option json -> option json
               -> result bool)
    (body : json) :
  let complete :=
    Routes.jsTruthy (Routes.field "recipientEmail" body) &&
    Routes.jsTruthy (Routes.field "senderName" body) &&
    Routes.jsTruthy (Routes.field "quoteData" body) in
  let response := Routes.postSendQuote deliver body in
  (Routes.code response = 400 <-> complete = false) /\
  (complete = false ->
   response = {| Routes.code := 400;
                 Routes.payload := Routes.Message "Missing required fields" |}) /\
  (Routes.code response = 200 <->
   complete = true /\
   deliver (Routes.field "recipientEmail" body) (Routes.field "senderName" body)
           (Routes.field "quoteData" body) (Routes.field "message" body) = Ok true).
Proof.
  unfold Routes.postSendQuote.
  destruct (Routes.jsTruthy (Routes.field "recipientEmail" body)),
    (Routes.jsTruthy (Routes.field "senderName" body)),
    (Routes.jsTruthy (Routes.field "quoteData" body)); cbn [negb orb andb];
    try (repeat split; intros; try discriminate; try reflexivity;
         try (destruct H; discriminate); fail).
  destruct (deliver _ _ _ _) as [[|]|e]; cbn [Routes.code];
    repeat split; intros; try discriminate; try reflexivity;
    try (destruct H; discriminate).
Qed.
